(** * neverthrow-tutorial: the Result pipeline around [JSON.parse]

    A shallow embedding of the tutorial's lesson files
    ([001-ok-and-err] ... [006-why-result-type-is-needed]) together with the
    two things they lean on and do not define themselves: the host's
    [JSON.parse] and the [neverthrow] Result combinators.

    Layout:
    - JavaScript values, error objects, completions, effects;
    - [JSON]       : a reference model of the host's [JSON.parse];
    - [neverthrow] : [ok], [err], [isOk], [isErr], [map], [mapErr],
                     [andThen], [match];
    - one module per lesson file, holding its [handleRequest];
    - the theorems. *)

From Stdlib Require Import List NArith ZArith Bool String Ascii Lia.
Import ListNotations.

Set Implicit Arguments.

(* ================================================================== *)
(** ** JavaScript values and control flow                              *)
(* ================================================================== *)

(** A JavaScript string is a sequence of 16-bit code units. *)
Definition js_string := list N.

(** [js "abc"] is the JavaScript string with the code units of the
    ASCII literal. *)
Definition js (s : string) : js_string :=
  List.map N_of_ascii (list_ascii_of_string s).

Definition dquote : N := 34.

(** [quoted "id"] is the five code units ["id"], quotes included. *)
Definition quoted (s : string) : js_string :=
  dquote :: js s ++ [dquote].

Fixpoint js_eqb (a b : js_string) : bool :=
  match a, b with
  | [], [] => true
  | x :: a', y :: b' => N.eqb x y && js_eqb a' b'
  | _, _ => false
  end.

(** A Number that came out of a JSON literal, kept as the exact decimal
    [(-1)^negative * mantissa * 10^exp10].  The rounding to binary64 is
    not carried out; the one place where it decides a branch of the
    lessons is the zero test of [ToBoolean], written out in [is_zero]. *)
Record JsNumber : Type := mkNumber
  { negative : bool; mantissa : N; exp10 : Z }.

#[warnings="-register-all"]
Inductive JsValue : Type :=
| JUndefined
| JNull
| JBool (b : bool)
| JNumber (n : JsNumber)
| JString (s : js_string)
| JArray (elements : list JsValue)
| JObject (properties : list (js_string * JsValue)).

(** The built-in error constructors. *)
Inductive ErrorClass : Type :=
| Error | EvalError | RangeError | ReferenceError
| SyntaxError | TypeError | URIError.

Definition ErrorClass_eqb (a b : ErrorClass) : bool :=
  match a, b with
  | Error, Error | EvalError, EvalError | RangeError, RangeError
  | ReferenceError, ReferenceError | SyntaxError, SyntaxError
  | TypeError, TypeError | URIError, URIError => true
  | _, _ => false
  end.

(** An error object: the constructor that built it and its [message]. *)
Record JsError : Type := new
  { constructor : ErrorClass; message : js_string }.

(** [error instanceof C] for the built-in constructors.  Every built-in
    error is an instance of [Error]; the others are pairwise unrelated. *)
Definition instanceof (error : JsError) (C : ErrorClass) : bool :=
  match C with
  | Error => true
  | _ => ErrorClass_eqb (constructor error) C
  end.

(** How the evaluation of an expression ends: with a value, or by
    throwing. *)
Inductive Completion (A : Type) : Type :=
| Normal (a : A)
| Throw (e : JsError).
Arguments Normal {A} a.
Arguments Throw {A} e.

(** [try { body } catch (error) { handler(error) }] *)
Definition try_catch {A} (body : Completion A)
    (handler : JsError -> Completion A) : Completion A :=
  match body with
  | Normal a => Normal a
  | Throw error => handler error
  end.

Definition cbind {A B} (c : Completion A) (k : A -> Completion B)
    : Completion B :=
  match c with
  | Normal a => k a
  | Throw e => Throw e
  end.

(** Code that may also call back into its caller (the [res] callback,
    a spy) runs over the caller's state [W]. *)
Definition Eff (W A : Type) : Type := W -> W * Completion A.

Definition ret {W A} (a : A) : Eff W A := fun w => (w, Normal a).

Definition bind {W A B} (m : Eff W A) (k : A -> Eff W B) : Eff W B :=
  fun w =>
    match m w with
    | (w', Normal a) => k a w'
    | (w', Throw e) => (w', Throw e)
    end.

(** A computation that touches no state. *)
Definition lift {W A} (c : Completion A) : Eff W A := fun w => (w, c).

Declare Scope eff_scope.
Delimit Scope eff_scope with eff.
Notation "x <- m ;; k" := (bind m (fun x => k))
  (at level 61, m at next level, right associativity) : eff_scope.
Notation "m ;; k" := (bind m (fun _ => k))
  (at level 61, right associativity) : eff_scope.
(** [r >>= method] is the method call [r.method(...)] on what [r] gave. *)
Notation "m >>= k" := (bind m k)
  (at level 58, left associativity) : eff_scope.
Open Scope eff_scope.

(** [ToBoolean] on a Number: false exactly for the zeros.  A decimal
    rounds to a binary64 zero iff its magnitude is at most [2^-1075],
    half of the least subnormal (the tie goes to the even neighbour,
    zero). *)
Definition is_zero (n : JsNumber) : bool :=
  N.eqb (mantissa n) 0
  || (Z.ltb (exp10 n) 0
      && Z.leb (Z.of_N (mantissa n) * 2 ^ 1075) (10 ^ (- exp10 n))).

(** [ToBoolean(v)], the test behind [!v] and [if (v)]. *)
Definition ToBoolean (v : JsValue) : bool :=
  match v with
  | JUndefined | JNull => false
  | JBool b => b
  | JNumber n => negb (is_zero n)
  | JString s => match s with [] => false | _ => true end
  | JArray _ | JObject _ => true
  end.

(** Own-property lookup in an object literal's property list. *)
Fixpoint lookup (key : js_string) (props : list (js_string * JsValue))
    : option JsValue :=
  match props with
  | [] => None
  | (k, v) :: rest => if js_eqb k key then Some v else lookup key rest
  end.

(** [CreateDataProperty]: overwrite the value of an existing key, else
    append. *)
Fixpoint define (key : js_string) (v : JsValue)
    (props : list (js_string * JsValue)) : list (js_string * JsValue) :=
  match props with
  | [] => [(key, v)]
  | (k, w) :: rest =>
      if js_eqb k key then (k, v) :: rest else (k, w) :: define key v rest
  end.

(** The TypeError of a member expression on [undefined] or [null]. *)
Definition cannot_read (what property : string) : JsError :=
  new TypeError
    (js "Cannot read properties of " ++ js what ++ js " (reading '"
       ++ js property ++ js "')").

(** The member expression [data.id].  On [undefined] and [null] it throws
    a TypeError; a primitive is boxed and neither its wrapper nor
    [Array.prototype] nor [Object.prototype] has an [id], so only an
    object's own property can answer. *)
Definition get_id (data : JsValue) : Completion JsValue :=
  match data with
  | JUndefined => Throw (cannot_read "undefined" "id")
  | JNull => Throw (cannot_read "null" "id")
  | JObject props =>
      match lookup (js "id") props with
      | Some v => Normal v
      | None => Normal JUndefined
      end
  | _ => Normal JUndefined
  end.

(** A field that an instance may lack reads as [undefined]. *)
Definition field (o : option JsValue) : JsValue :=
  match o with
  | Some v => v
  | None => JUndefined
  end.

(** The member expression [e.message] on the [error] field of a Result. *)
Definition get_message (o : option JsError) : Completion JsValue :=
  match o with
  | Some e => Normal (JString (message e))
  | None => Throw (cannot_read "undefined" "message")
  end.

(** What a lesson needs from its engine. *)
Definition HostParse : Type := js_string -> Completion JsValue.

(* ================================================================== *)
(** ** The host: a reference model of [JSON.parse]                     *)
(* ================================================================== *)

(** [JSON.parse] is the engine's, not the repository's.  The lessons are
    embedded over an arbitrary host parser (see [HostParse] below); this
    module gives one concrete host for them to run on: a recursive-descent
    reader of the JSON grammar (ECMA-404) over code units.

    A SyntaxError's [message] is engine-defined text.  The model words
    every violation the way the repository's tests observe it for a
    short source with a bad first token,
      [Unexpected token 'i', "invalid json" is not valid JSON],
    naming the first code unit at which the text stops being a prefix of
    a JSON text, and uses [Unexpected end of JSON input] when the text
    ends too early. *)
Module JSON.

Local Open Scope N_scope.

Inductive Fault : Type :=
| UnexpectedEnd
| UnexpectedToken (c : N).

(** What scanning a prefix of the text gives: a value and the rest of
    the text, a fault, or (only for [scan_value] and its loops) the
    recursion budget running out. *)
Inductive Scan (A : Type) : Type :=
| Accept (a : A) (rest : js_string)
| Reject (f : Fault)
| Exhausted.
Arguments Accept {A} a rest.
Arguments Reject {A} f.
Arguments Exhausted {A}.

Definition scan_map {A B} (f : A -> B) (r : Scan A) : Scan B :=
  match r with
  | Accept a rest => Accept (f a) rest
  | Reject e => Reject e
  | Exhausted => Exhausted
  end.

(** A scan that ended, and if it accepted left fewer than [bound] code
    units. *)
Definition within {A} (r : Scan A) (bound : nat) : Prop :=
  match r with
  | Accept _ rest => (List.length rest < bound)%nat
  | Reject _ => True
  | Exhausted => False
  end.

Definition fault_at (s : js_string) : Fault :=
  match s with
  | [] => UnexpectedEnd
  | c :: _ => UnexpectedToken c
  end.

Definition is_ws (c : N) : bool :=
  N.eqb c 9 || N.eqb c 10 || N.eqb c 13 || N.eqb c 32.

Fixpoint skip_ws (s : js_string) : js_string :=
  match s with
  | c :: rest => if is_ws c then skip_ws rest else s
  | [] => []
  end.

Definition is_digit (c : N) : bool := N.leb 48 c && N.leb c 57.

Definition hex_value (c : N) : option N :=
  if N.leb 48 c && N.leb c 57 then Some (c - 48)
  else if N.leb 65 c && N.leb c 70 then Some (c - 55)
  else if N.leb 97 c && N.leb c 102 then Some (c - 87)
  else None.

Definition hex4 (a b c d : N) : option N :=
  match hex_value a, hex_value b, hex_value c, hex_value d with
  | Some x, Some y, Some z, Some w => Some (((x * 16 + y) * 16 + z) * 16 + w)
  | _, _, _, _ => None
  end.

Fixpoint first_non_hex (s : js_string) : Fault :=
  match s with
  | [] => UnexpectedEnd
  | c :: rest =>
      match hex_value c with
      | Some _ => first_non_hex rest
      | None => UnexpectedToken c
      end
  end.

(** The code unit a two-character escape stands for. *)
Definition escape (c : N) : option N :=
  if N.eqb c 34 then Some 34          (* \ then quotation mark *)
  else if N.eqb c 92 then Some 92     (* \\ *)
  else if N.eqb c 47 then Some 47     (* \/ *)
  else if N.eqb c 98 then Some 8      (* \b *)
  else if N.eqb c 102 then Some 12    (* \f *)
  else if N.eqb c 110 then Some 10    (* \n *)
  else if N.eqb c 114 then Some 13    (* \r *)
  else if N.eqb c 116 then Some 9     (* \t *)
  else None.

(** The characters of a string, the opening quote already consumed. *)
Fixpoint scan_string (s : js_string) : Scan js_string :=
  match s with
  | [] => Reject UnexpectedEnd
  | c :: rest =>
      if N.eqb c 34 then Accept [] rest
      else if N.ltb c 32 then Reject (UnexpectedToken c)
      else if N.eqb c 92 then
        match rest with
        | [] => Reject UnexpectedEnd
        | e :: rest1 =>
            if N.eqb e 117 then          (* \uXXXX *)
              match rest1 with
              | h1 :: h2 :: h3 :: h4 :: rest2 =>
                  match hex4 h1 h2 h3 h4 with
                  | Some u => scan_map (cons u) (scan_string rest2)
                  | None => Reject (first_non_hex [h1; h2; h3; h4])
                  end
              | short => Reject (first_non_hex short)
              end
            else
              match escape e with
              | Some u => scan_map (cons u) (scan_string rest1)
              | None => Reject (UnexpectedToken e)
              end
        end
      else scan_map (cons c) (scan_string rest)
  end.

(** A maximal run of decimal digits: its value, its length, the rest. *)
Fixpoint scan_digits (s : js_string) (value : N) (count : nat)
    : N * nat * js_string :=
  match s with
  | c :: rest =>
      if is_digit c then scan_digits rest (value * 10 + (c - 48)) (S count)
      else (value, count, s)
  | [] => (value, count, [])
  end.

(** The integer part: a lone 0, or a nonzero digit and more digits. *)
Definition scan_int (s : js_string) : Scan N :=
  match s with
  | [] => Reject UnexpectedEnd
  | c :: rest =>
      if negb (is_digit c) then Reject (UnexpectedToken c)
      else if N.eqb c 48 then Accept 0 rest
      else let '(int, _, s') := scan_digits s 0 0 in Accept int s'
  end.

(** The optional fraction after the integer part [int]: a point and at
    least one digit.  Gives the digits read so far as one integer, and
    how many of them stand after the point. *)
Definition scan_fraction (int : N) (s : js_string) : Scan (N * Z) :=
  match s with
  | d :: rest =>
      if N.eqb d 46 then
        let '(m, k, s') := scan_digits rest int 0 in
        match k with
        | O => Reject (fault_at s')
        | _ => Accept (m, Z.of_nat k) s'
        end
      else Accept (int, 0%Z) s
  | [] => Accept (int, 0%Z) s
  end.

(** The optional exponent: e or E, an optional sign, at least one
    digit. *)
Definition scan_exponent (s : js_string) : Scan Z :=
  match s with
  | e :: rest =>
      if N.eqb e 101 || N.eqb e 69 then
        let (eneg, s1) :=
          match rest with
          | g :: rest' =>
              if N.eqb g 45 then (true, rest')
              else if N.eqb g 43 then (false, rest')
              else (false, rest)
          | [] => (false, rest)
          end in
        let '(x, j, s2) := scan_digits s1 0 0 in
        match j with
        | O => Reject (fault_at s2)
        | _ => Accept (if eneg then (- Z.of_N x)%Z else Z.of_N x) s2
        end
      else Accept 0%Z s
  | [] => Accept 0%Z s
  end.

(** A number: an optional minus, the integer part, the optional fraction,
    the optional exponent. *)
Definition scan_number (s : js_string) : Scan JsNumber :=
  let (neg, s1) :=
    match s with
    | c :: rest => if N.eqb c 45 then (true, rest) else (false, s)
    | [] => (false, s)
    end in
  match scan_int s1 with
  | Accept int s2 =>
      match scan_fraction int s2 with
      | Accept (m, k) s3 =>
          match scan_exponent s3 with
          | Accept x s4 => Accept (mkNumber neg m (x - k)) s4
          | Reject f => Reject f
          | Exhausted => Exhausted
          end
      | Reject f => Reject f
      | Exhausted => Exhausted
      end
  | Reject f => Reject f
  | Exhausted => Exhausted
  end.

(** A fixed word ([true], [false], [null]). *)
Fixpoint scan_literal (word s : js_string) : Scan unit :=
  match word with
  | [] => Accept tt s
  | w :: word' =>
      match s with
      | [] => Reject UnexpectedEnd
      | c :: rest =>
          if N.eqb c w then scan_literal word' rest
          else Reject (UnexpectedToken c)
      end
  end.

(** A value, the elements of an array after its bracket, the members
    of an object after its brace.  [depth] bounds the calls still
    allowed; [parse] starts with a budget no text uses up
    ([JSONFacts.scan_value_budget]). *)
Fixpoint scan_value (depth : nat) (s : js_string) : Scan JsValue :=
  match depth with
  | O => Exhausted
  | S depth' =>
      match skip_ws s with
      | [] => Reject UnexpectedEnd
      | c :: rest =>
          if N.eqb c 123 then                            (* { *)
            match skip_ws rest with
            | [] => Reject UnexpectedEnd
            | c' :: rest' =>
                if N.eqb c' 125 then Accept (JObject []) rest'
                else scan_members depth' (c' :: rest') []
            end
          else if N.eqb c 91 then                        (* [ *)
            match skip_ws rest with
            | [] => Reject UnexpectedEnd
            | c' :: rest' =>
                if N.eqb c' 93 then Accept (JArray []) rest'
                else scan_elements depth' (c' :: rest') []
            end
          else if N.eqb c 34 then scan_map JString (scan_string rest)
          else if N.eqb c 45 || is_digit c then
            scan_map JNumber (scan_number (c :: rest))
          else if N.eqb c 116 then
            scan_map (fun _ => JBool true) (scan_literal (js "true") (c :: rest))
          else if N.eqb c 102 then
            scan_map (fun _ => JBool false) (scan_literal (js "false") (c :: rest))
          else if N.eqb c 110 then
            scan_map (fun _ => JNull) (scan_literal (js "null") (c :: rest))
          else Reject (UnexpectedToken c)
      end
  end

with scan_elements (depth : nat) (s : js_string) (seen : list JsValue)
    : Scan JsValue :=
  match depth with
  | O => Exhausted
  | S depth' =>
      match scan_value depth' s with
      | Accept v rest =>
          match skip_ws rest with
          | [] => Reject UnexpectedEnd
          | c :: rest' =>
              if N.eqb c 44 then scan_elements depth' rest' (seen ++ [v])
              else if N.eqb c 93 then Accept (JArray (seen ++ [v])) rest'
              else Reject (UnexpectedToken c)
          end
      | Reject f => Reject f
      | Exhausted => Exhausted
      end
  end

with scan_members (depth : nat) (s : js_string)
    (seen : list (js_string * JsValue)) : Scan JsValue :=
  match depth with
  | O => Exhausted
  | S depth' =>
      match skip_ws s with
      | [] => Reject UnexpectedEnd
      | q :: rest =>
          if negb (N.eqb q 34) then Reject (UnexpectedToken q)
          else
            match scan_string rest with
            | Accept key rest1 =>
                match skip_ws rest1 with
                | [] => Reject UnexpectedEnd
                | colon :: rest2 =>
                    if negb (N.eqb colon 58) then
                      Reject (UnexpectedToken colon)
                    else
                      match scan_value depth' rest2 with
                      | Accept v rest3 =>
                          match skip_ws rest3 with
                          | [] => Reject UnexpectedEnd
                          | c :: rest4 =>
                              if N.eqb c 44 then
                                scan_members depth' rest4 (define key v seen)
                              else if N.eqb c 125 then
                                Accept (JObject (define key v seen)) rest4
                              else Reject (UnexpectedToken c)
                          end
                      | Reject f => Reject f
                      | Exhausted => Exhausted
                      end
                end
            | Reject f => Reject f
            | Exhausted => Exhausted
            end
      end
  end.

(** The text of the SyntaxError for a fault in [text]. *)
Definition fault_message (f : Fault) (text : js_string) : js_string :=
  match f with
  | UnexpectedEnd => js "Unexpected end of JSON input"
  | UnexpectedToken c =>
      js "Unexpected token '" ++ [c] ++ js "', " ++ [dquote] ++ text
        ++ [dquote] ++ js " is not valid JSON"
  end.

Definition budget (text : js_string) : nat :=
  (2 * List.length text + 1)%nat.

(** [JSON.parse(text)]: one value, then nothing but white space.  The
    last branch is never taken ([JSONFacts.parse_total]). *)
Definition parse (text : js_string) : Completion JsValue :=
  match scan_value (budget text) text with
  | Accept v rest =>
      match skip_ws rest with
      | [] => Normal v
      | c :: _ =>
          Throw (new SyntaxError (fault_message (UnexpectedToken c) text))
      end
  | Reject f => Throw (new SyntaxError (fault_message f text))
  | Exhausted =>
      Throw (new RangeError (js "Maximum call stack size exceeded"))
  end.

End JSON.

(* ================================================================== *)
(** ** neverthrow                                                      *)
(* ================================================================== *)

(** The library's two classes, [Ok] and [Err], and the methods the
    lessons call.  A callback is code of the caller: it runs over the
    caller's state and may throw, and a method that does not call it
    leaves no trace of it. *)
Module neverthrow.

(** Modelled from the spec: [Result] is the library's, not under src/.
    "a tagged union with exactly two variants", the success variant with
    a value of type T, the failure variant with a value of type E. *)
Inductive Result (T E : Type) : Type :=
| Ok (value : T)
| Err (error : E).
Arguments Ok {T E} value.
Arguments Err {T E} error.

(** Modelled from the spec: [ok] and [err] ([success] and [failure]
    there) are the library's, not under src/.  "always succeeds, wraps
    value as the success variant", and the same for the failure one. *)
Definition ok {T E} (value : T) : Result T E := Ok value.
Definition err {T E} (error : E) : Result T E := Err error.

(** Modelled from the spec: [isOk] and [isErr] ([isSuccess] and
    [isFailure] there) are the library's, not under src/.  "true iff the
    success variant is populated", and the same for the failure one. *)
Definition isOk {T E} (r : Result T E) : bool :=
  match r with
  | Ok _ => true
  | Err _ => false
  end.

Definition isErr {T E} (r : Result T E) : bool := negb (isOk r).

(** The instance fields: an [Ok] has [value] only, an [Err] has [error]
    only.  The lessons read a field only under the matching [isOk] or
    [isErr] test. *)
Definition value {T E} (r : Result T E) : option T :=
  match r with
  | Ok v => Some v
  | Err _ => None
  end.

Definition error {T E} (r : Result T E) : option E :=
  match r with
  | Ok _ => None
  | Err e => Some e
  end.

Section Methods.
Context {W T U E F : Type}.

(** Modelled from the spec: [map] is the library's, not under src/.
    "if success, applies f to the payload and rewraps; if failure,
    returns an equivalent failure Result unchanged". *)
Definition map (f : T -> Eff W U) (r : Result T E)
    : Eff W (Result U E) :=
  match r with
  | Ok v => u <- f v ;; ret (ok u)
  | Err e => ret (err e)
  end.

(** Modelled from the spec: [mapErr] ([mapFailure] there) is the
    library's, not under src/.  "mirror of map on the failure side;
    success passes through unchanged". *)
Definition mapErr (f : E -> Eff W F) (r : Result T E)
    : Eff W (Result T F) :=
  match r with
  | Ok v => ret (ok v)
  | Err e => x <- f e ;; ret (err x)
  end.

(** Modelled from the spec: [andThen] is the library's, not under
    src/.  "if success, invokes f with the payload and returns f's
    Result directly; if failure, short-circuits and returns an
    equivalent failure Result without invoking f". *)
Definition andThen (f : T -> Eff W (Result U E)) (r : Result T E)
    : Eff W (Result U E) :=
  match r with
  | Ok v => f v
  | Err e => ret (err e)
  end.

(** Modelled from the spec: [match] is the library's, not under src/.
    "invokes exactly one of the two callbacks depending on variant,
    and returns that callback's result". *)
Definition match_ (onOk : T -> Eff W U) (onErr : E -> Eff W U)
    (r : Result T E) : Eff W U :=
  match r with
  | Ok v => onOk v
  | Err e => onErr e
  end.
End Methods.

(** [r.andThen(f1).andThen(f2)...] *)
Fixpoint andThen_all {W T E} (steps : list (T -> Eff W (Result T E)))
    (r : Result T E) : Eff W (Result T E) :=
  match steps with
  | [] => ret r
  | f :: steps' => andThen f r >>= andThen_all steps'
  end.

End neverthrow.
Import neverthrow.

(* ================================================================== *)
(** ** Test doubles                                                    *)
(* ================================================================== *)

(** The [res] callback of a handler: [(status, message) => void]. *)
Definition Res (W : Type) : Type := Z -> JsValue -> Eff W unit.

(** One recorded call of [res]. *)
Definition Call : Type := (Z * JsValue)%type.

(** [vitest.fn(impl)]: records the arguments, then runs [impl]. *)
Definition fn {W} (impl : Res W) : Res (list Call * W) :=
  fun status message '(calls, w) =>
    let (w', c) := impl status message w in
    ((calls ++ [(status, message)], w'), c).

(** [vitest.fn()]: records the arguments and returns [undefined]. *)
Definition resSpy : Res (list Call) :=
  fun status message calls => (calls ++ [(status, message)], Normal tt).

(** A callback under a call counter; [watch true f] counts its calls,
    [watch false f] runs beside the counter. *)
Definition watch {W T U} (counting : bool) (f : T -> Eff W U)
    : T -> Eff (nat * W) U :=
  fun x '(n, w) =>
    let (w', c) := f x w in
    ((if counting then S n else n, w'), c).

(** The counter after a run. *)
Definition count_of {W A} (r : (nat * W) * Completion A) : nat :=
  fst (fst r).

(* ================================================================== *)
(** ** The lessons                                                     *)
(* ================================================================== *)

(** The request a handler is given: [{ body: string }]. *)
Record Request : Type := mkRequest { body : js_string }.

Section Parser.
Variable JSON_parse : HostParse.

(** [jsonParse], the same function in every lesson file (lessons 1.1,
    1.2, 2, 3, 4, 4.5, 5 and 6; lesson 1.1 leaves out the return type):
<<
    try { return ok(JSON.parse(input)) }
    catch (error) {
        if (error instanceof SyntaxError) { return err(error) }
        throw error
    }
>> *)
Definition jsonParse (input : js_string)
    : Completion (Result JsValue JsError) :=
  try_catch
    (cbind (JSON_parse input) (fun parsed => Normal (ok parsed)))
    (fun error =>
       if instanceof error SyntaxError then Normal (err error)
       else Throw error).
End Parser.

(** Lesson 3, isOk first (the lesson file whose name is not known). *)
Module Lesson3_1.
Section Handler.
Variable JSON_parse : HostParse.
Context {W : Type}.

Definition handleRequest (req : Request) (res : Res W) : Eff W unit :=
  result <- lift (jsonParse JSON_parse (body req)) ;;
  if isOk result then
    id <- lift (get_id (field (value result))) ;;
    res 200%Z id
  else
    text <- lift (get_message (error result)) ;;
    res 400%Z text.
End Handler.
End Lesson3_1.

(** Lesson 3, isErr first: [003-handling-ok-and-err.solution.2.ts]. *)
Module Lesson3_2.
Section Handler.
Variable JSON_parse : HostParse.
Context {W : Type}.

Definition handleRequest (req : Request) (res : Res W) : Eff W unit :=
  result <- lift (jsonParse JSON_parse (body req)) ;;
  if isErr result then
    text <- lift (get_message (error result)) ;;
    res 400%Z text
    (* return *)
  else
    id <- lift (get_id (field (value result))) ;;
    res 200%Z id.
End Handler.
End Lesson3_2.

(** Lesson 4: [004-map-and-map-err.solution.ts]. *)
Module Lesson4.
Section Handler.
Variable JSON_parse : HostParse.
Context {W : Type}.

Definition handleRequest (req : Request) (res : Res W) : Eff W unit :=
  lift (jsonParse JSON_parse (body req))
    >>= map (fun data =>
               id <- lift (get_id data) ;;
               res 200%Z id)
    >>= mapErr (fun err =>
                  res 400%Z (JString (message err)))
    >>= fun _ => ret tt.
End Handler.
End Lesson4.

(** Lesson 4.5: [004.5-match.explainer.ts]. *)
Module Lesson4_5.
Section Handler.
Variable JSON_parse : HostParse.
Context {W : Type}.

Definition handleRequest (req : Request) (res : Res W) : Eff W unit :=
  lift (jsonParse JSON_parse (body req))
    >>= match_
          (fun data =>
             id <- lift (get_id data) ;;
             res 200%Z id)
          (fun err =>
             res 400%Z (JString (message err))).
End Handler.
End Lesson4_5.

(** Lesson 5: [005-and-then.solution.ts]. *)
Module Lesson5.
Definition checkForId (data : JsValue)
    : Completion (Result JsValue JsError) :=
  cbind (get_id data) (fun id =>
    if negb (ToBoolean id) then
      Normal (err (new Error (js "No id found")))
    else
      Normal (ok data)).

Section Handler.
Variable JSON_parse : HostParse.
Context {W : Type}.

Definition handleRequest (req : Request) (res : Res W) : Eff W unit :=
  lift (jsonParse JSON_parse (body req))
    >>= andThen (fun data => lift (checkForId data))
    >>= map (fun data =>
               id <- lift (get_id data) ;;
               res 200%Z id)
    >>= mapErr (fun err =>
                  res 400%Z (JString (message err)))
    >>= fun _ => ret tt.
End Handler.
End Lesson5.

(** Lesson 6: [006-why-result-type-is-needed.explainer.ts]; the code of
    lesson 5 under looser type annotations. *)
Module Lesson6.
Definition checkForId (data : JsValue)
    : Completion (Result JsValue JsError) :=
  cbind (get_id data) (fun id =>
    if negb (ToBoolean id) then
      Normal (err (new Error (js "No id found")))
    else
      Normal (ok data)).

Section Handler.
Variable JSON_parse : HostParse.
Context {W : Type}.

Definition handleRequest (req : Request) (res : Res W) : Eff W unit :=
  lift (jsonParse JSON_parse (body req))
    >>= andThen (fun data => lift (checkForId data))
    >>= map (fun data =>
               id <- lift (get_id data) ;;
               res 200%Z id)
    >>= mapErr (fun err =>
                  res 400%Z (JString (message err)))
    >>= fun _ => ret tt.
End Handler.
End Lesson6.

(** A handler of any lesson, over its host. *)
Definition Handler (W : Type) : Type :=
  HostParse -> Request -> Res W -> Eff W unit.

(** The handlers that go straight from [jsonParse] to [res]. *)
Definition unvalidated_handlers (W : Type) : list (Handler W) :=
  [ fun P => Lesson3_1.handleRequest P;
    fun P => Lesson3_2.handleRequest P;
    fun P => Lesson4.handleRequest P;
    fun P => Lesson4_5.handleRequest P ].

(** The handlers with [checkForId] between [jsonParse] and [res]. *)
Definition validating_handlers (W : Type) : list (Handler W) :=
  [ fun P => Lesson5.handleRequest P;
    fun P => Lesson6.handleRequest P ].

Definition all_handlers (W : Type) : list (Handler W) :=
  unvalidated_handlers W ++ validating_handlers W.

(** The ways an object's [id] can be falsy. *)
Inductive FalsyId (props : list (js_string * JsValue)) : Prop :=
| id_absent : lookup (js "id") props = None -> FalsyId props
| id_empty_string : lookup (js "id") props = Some (JString []) -> FalsyId props
| id_zero n :
    lookup (js "id") props = Some (JNumber n) -> is_zero n = true ->
    FalsyId props
| id_false : lookup (js "id") props = Some (JBool false) -> FalsyId props
| id_null : lookup (js "id") props = Some JNull -> FalsyId props.

(** The error [checkForId] answers with. *)
Definition no_id_found : JsError := new Error (js "No id found").

(** A host whose parser gives up with a RangeError, as an engine does
    when it runs out of stack. *)
Definition overflowing_host : HostParse :=
  fun _ => Throw (new RangeError (js "Maximum call stack size exceeded")).

(** A pure function used as a callback. *)
Definition pure {W A B} (f : A -> B) : A -> Eff W B :=
  fun x => ret (f x).

(** The request bodies of the lessons' tests. *)
Definition body_with_id : js_string :=
  js "{" ++ quoted "id" ++ js ": " ++ quoted "123" ++ js "}".
Definition body_empty_object : js_string := js "{}".
Definition body_invalid : js_string := js "invalid json".
Definition body_empty_id : js_string :=
  js "{" ++ quoted "id" ++ js ": " ++ quoted "" ++ js "}".
Definition body_null : js_string := js "null".

(** The text the tests expect for [body_invalid]. *)
Definition invalid_json_text : js_string :=
  js "Unexpected token 'i', " ++ quoted "invalid json"
    ++ js " is not valid JSON".

(** Answering a request: one call of [res], whose error, if it throws,
    leaves the handler. *)
Definition once {W} (res : Res W) (status : Z) (message : JsValue)
    : Eff W unit :=
  fun w =>
    let (w', c) := res status message w in
    (w', cbind c (fun _ => Normal tt)).

(** Payloads that are values but not objects with properties of their
    own: booleans, numbers, strings and arrays. *)
Definition primitive_or_array (data : JsValue) : bool :=
  match data with
  | JBool _ | JNumber _ | JString _ | JArray _ => true
  | JUndefined | JNull | JObject _ => false
  end.

(** The two copies of [checkForId], of lessons 5 and 6. *)
Definition checkers : list (JsValue -> Completion (Result JsValue JsError)) :=
  [Lesson5.checkForId; Lesson6.checkForId].

(* ================================================================== *)
(** ** jsonParse                                                       *)
(* ================================================================== *)

Section JsonParseFacts.
Variable JSON_parse : HostParse.

Lemma jsonParse_parsed input v :
  JSON_parse input = Normal v ->
  jsonParse JSON_parse input = Normal (Ok v).
Proof. unfold jsonParse; intros ->; reflexivity. Qed.

Lemma jsonParse_syntax_error input e :
  JSON_parse input = Throw e ->
  instanceof e SyntaxError = true ->
  jsonParse JSON_parse input = Normal (Err e).
Proof.
  unfold jsonParse, try_catch, cbind; intros -> Hs.
  rewrite Hs; reflexivity.
Qed.

Lemma jsonParse_fatal input e :
  JSON_parse input = Throw e ->
  instanceof e SyntaxError = false ->
  jsonParse JSON_parse input = Throw e.
Proof.
  unfold jsonParse, try_catch, cbind; intros -> Hs.
  rewrite Hs; reflexivity.
Qed.
End JsonParseFacts.

(** C3. [jsonParse] turns exactly the SyntaxError of [JSON.parse] into a
    failure Result: when the host's parser throws [error], [jsonParse]
    returns [err(error)] if [error instanceof SyntaxError], and otherwise
    throws [error] again and returns no Result at all. *)
Theorem jsonParse_error_boundary
    (JSON_parse : HostParse) (input : js_string) (error : JsError) :
  JSON_parse input = Throw error ->
  (instanceof error SyntaxError = true ->
     jsonParse JSON_parse input = Normal (err error))
  /\ (instanceof error SyntaxError = false ->
        jsonParse JSON_parse input = Throw error
        /\ forall r, jsonParse JSON_parse input <> Normal r).
Proof.
  intros Hthrow; split; intros Hclass.
  - now apply jsonParse_syntax_error.
  - assert (Hfatal := jsonParse_fatal JSON_parse input Hthrow Hclass).
    split; [exact Hfatal|].
    intros r Hr; rewrite Hfatal in Hr; discriminate.
Qed.

Lemma jsonParse_error_boundary_witness :
  jsonParse JSON.parse body_invalid
    = Normal (err (new SyntaxError invalid_json_text))
  /\ jsonParse overflowing_host body_invalid
    = Throw (new RangeError (js "Maximum call stack size exceeded")).
Proof.
  split.
  - apply (jsonParse_error_boundary JSON.parse body_invalid
             (error := new SyntaxError invalid_json_text));
      vm_compute; reflexivity.
  - apply (jsonParse_error_boundary overflowing_host body_invalid
             (error := new RangeError
                         (js "Maximum call stack size exceeded")));
      vm_compute; reflexivity.
Defined.

(* ================================================================== *)
(** ** The handlers, outcome by outcome                                *)
(* ================================================================== *)

Ltac unfold_handlers :=
  unfold Lesson3_1.handleRequest, Lesson3_2.handleRequest,
    Lesson4.handleRequest, Lesson4_5.handleRequest,
    Lesson5.handleRequest, Lesson6.handleRequest.

Ltac unfold_eff :=
  cbv beta iota zeta delta
    [bind lift ret map mapErr andThen match_ isErr isOk negb
     value error field get_message ok err cbind
     Lesson5.checkForId Lesson6.checkForId].

(** Split [In h (all_handlers W)] (or one of its two halves) into one
    goal per lesson. *)
Ltac each_handler H :=
  unfold all_handlers, unvalidated_handlers, validating_handlers in H;
  simpl in H;
  repeat (destruct H as [<- | H]); [ .. | contradiction H ].

Section Outcomes.
Variable JSON_parse : HostParse.
Context {W : Type}.
Variables (res : Res W) (req : Request) (w : W).

(** A fatal error of [jsonParse] leaves every handler before [res]. *)
Lemma handler_parse_fatal h e :
  In h (all_handlers W) ->
  jsonParse JSON_parse (body req) = Throw e ->
  h JSON_parse req res w = (w, Throw e).
Proof.
  intros Hin Hp; each_handler Hin; unfold_handlers; unfold_eff;
    rewrite Hp; reflexivity.
Qed.

(** A failure Result of [jsonParse] is answered with one [res(400, _)]
    (and whatever [res] does). *)
Lemma handler_parse_err h e :
  In h (all_handlers W) ->
  jsonParse JSON_parse (body req) = Normal (Err e) ->
  h JSON_parse req res w
    = let (w', c) := res 400%Z (JString (message e)) w in
      (w', cbind c (fun _ => Normal tt)).
Proof.
  intros Hin Hp; each_handler Hin; unfold_handlers; unfold_eff;
    rewrite Hp; unfold_eff;
    destruct (res 400%Z (JString (message e)) w) as [w' [[]|x]];
    reflexivity.
Qed.

(** Without validation, a payload whose [id] can be read is answered
    with one [res(200, data.id)]. *)
Lemma unvalidated_parse_ok h data id :
  In h (unvalidated_handlers W) ->
  jsonParse JSON_parse (body req) = Normal (Ok data) ->
  get_id data = Normal id ->
  h JSON_parse req res w
    = let (w', c) := res 200%Z id w in (w', cbind c (fun _ => Normal tt)).
Proof.
  intros Hin Hp Hid; each_handler Hin; unfold_handlers; unfold_eff;
    rewrite Hp; unfold_eff; rewrite Hid;
    destruct (res 200%Z id w) as [w' [[]|x]]; reflexivity.
Qed.

(** A payload whose [id] cannot be read stops every handler before
    [res]. *)
Lemma handler_id_fatal h data e :
  In h (all_handlers W) ->
  jsonParse JSON_parse (body req) = Normal (Ok data) ->
  get_id data = Throw e ->
  h JSON_parse req res w = (w, Throw e).
Proof.
  intros Hin Hp Hid; each_handler Hin; unfold_handlers; unfold_eff;
    rewrite Hp; unfold_eff; rewrite Hid; reflexivity.
Qed.

(** With validation, a truthy [id] is answered with one
    [res(200, data.id)]. *)
Lemma validating_parse_ok h data id :
  In h (validating_handlers W) ->
  jsonParse JSON_parse (body req) = Normal (Ok data) ->
  get_id data = Normal id ->
  ToBoolean id = true ->
  h JSON_parse req res w
    = let (w', c) := res 200%Z id w in (w', cbind c (fun _ => Normal tt)).
Proof.
  intros Hin Hp Hid Ht; each_handler Hin; unfold_handlers; unfold_eff;
    rewrite Hp; unfold_eff; rewrite Hid, Ht; unfold_eff; rewrite Hid;
    destruct (res 200%Z id w) as [w' [[]|x]]; reflexivity.
Qed.

(** With validation, a falsy [id] is answered with one
    [res(400, "No id found")]. *)
Lemma validating_parse_falsy h data id :
  In h (validating_handlers W) ->
  jsonParse JSON_parse (body req) = Normal (Ok data) ->
  get_id data = Normal id ->
  ToBoolean id = false ->
  h JSON_parse req res w
    = let (w', c) := res 400%Z (JString (js "No id found")) w in
      (w', cbind c (fun _ => Normal tt)).
Proof.
  intros Hin Hp Hid Ht; each_handler Hin; unfold_handlers; unfold_eff;
    rewrite Hp; unfold_eff; rewrite Hid, Ht; unfold_eff;
    change (message (new Error (js "No id found")))
      with (js "No id found");
    destruct (res 400%Z (JString (js "No id found")) w) as [w' [[]|x]];
    reflexivity.
Qed.
End Outcomes.

(* ================================================================== *)
(** ** The scenarios of the lessons' tests                             *)
(* ================================================================== *)

(** C1. For the body [{"id": "123"}] the lesson-5 handler ([jsonParse],
    then [andThen(checkForId)], then [map], then [mapErr]) calls [res]
    with status 200 and message "123", once, and returns. *)
Theorem lesson5_valid_id_gives_200 :
  Lesson5.handleRequest JSON.parse (mkRequest body_with_id) resSpy []
    = ([(200%Z, JString (js "123"))], Normal tt).
Proof.
  rewrite (validating_parse_ok (h := fun P => Lesson5.handleRequest P)
             JSON.parse resSpy (mkRequest body_with_id) []
             (data := JObject [(js "id", JString (js "123"))])
             (id := JString (js "123"))).
  - reflexivity.
  - simpl; auto.
  - apply jsonParse_parsed; vm_compute; reflexivity.
  - reflexivity.
  - reflexivity.
Qed.

(** C2. For the body [{}], valid JSON without an [id], the lesson-5
    handler calls [res] with status 400 and message "No id found",
    because [checkForId] answers the parsed empty object with the failure
    variant that carries an Error with that message. *)
Theorem lesson5_missing_id_gives_400 :
  jsonParse JSON.parse body_empty_object = Normal (ok (JObject []))
  /\ Lesson5.checkForId (JObject []) = Normal (err no_id_found)
  /\ constructor no_id_found = Error
  /\ message no_id_found = js "No id found"
  /\ Lesson5.handleRequest JSON.parse (mkRequest body_empty_object) resSpy []
       = ([(400%Z, JString (js "No id found"))], Normal tt).
Proof.
  assert (Hp : jsonParse JSON.parse body_empty_object
               = Normal (ok (JObject []))).
  { apply jsonParse_parsed; vm_compute; reflexivity. }
  split; [exact Hp|].
  do 3 (split; [reflexivity|]).
  rewrite (validating_parse_falsy (h := fun P => Lesson5.handleRequest P)
             JSON.parse resSpy (mkRequest body_empty_object) []
             (data := JObject []) (id := JUndefined));
    try reflexivity; try exact Hp.
  simpl; auto.
Qed.

(** C5. For the body [invalid json] every handler calls [res] with
    status 400 and, as message, the text of the SyntaxError the host's
    parser threw for that body. *)
Theorem invalid_json_gives_400_with_parser_text
    (JSON_parse : HostParse) (error : JsError) (h : Handler (list Call)) :
  JSON_parse body_invalid = Throw error ->
  instanceof error SyntaxError = true ->
  In h (all_handlers (list Call)) ->
  h JSON_parse (mkRequest body_invalid) resSpy []
    = ([(400%Z, JString (message error))], Normal tt).
Proof.
  intros Hthrow Hclass Hin.
  rewrite (handler_parse_err JSON_parse resSpy (mkRequest body_invalid) []
             Hin (e := error)).
  - reflexivity.
  - now apply jsonParse_syntax_error.
Qed.

Lemma invalid_json_gives_400_with_parser_text_witness :
  JSON.parse body_invalid = Throw (new SyntaxError invalid_json_text)
  /\ Lesson3_2.handleRequest JSON.parse (mkRequest body_invalid) resSpy []
       = ([(400%Z, JString invalid_json_text)], Normal tt)
  /\ Lesson5.handleRequest JSON.parse (mkRequest body_invalid) resSpy []
       = ([(400%Z, JString invalid_json_text)], Normal tt).
Proof.
  assert (Hp : JSON.parse body_invalid
               = Throw (new SyntaxError invalid_json_text))
    by (vm_compute; reflexivity).
  split; [exact Hp | split].
  - apply (@invalid_json_gives_400_with_parser_text JSON.parse _
             (fun P => Lesson3_2.handleRequest P) Hp);
      [reflexivity | simpl; auto].
  - apply (@invalid_json_gives_400_with_parser_text JSON.parse _
             (fun P => Lesson5.handleRequest P) Hp);
      [reflexivity | simpl; auto 10].
Defined.

(* ================================================================== *)
(** ** checkForId and the payloads it is not written for               *)
(* ================================================================== *)

Lemma FalsyId_get_id props :
  FalsyId props ->
  exists id, get_id (JObject props) = Normal id /\ ToBoolean id = false.
Proof.
  intros [H | H | n H Hz | H | H]; unfold get_id; rewrite H.
  - exists JUndefined; auto.
  - exists (JString []); auto.
  - exists (JNumber n); simpl; rewrite Hz; auto.
  - exists (JBool false); auto.
  - exists JNull; auto.
Qed.

Lemma checkForId_falsy data id :
  get_id data = Normal id ->
  ToBoolean id = false ->
  Lesson5.checkForId data = Normal (err no_id_found)
  /\ Lesson6.checkForId data = Normal (err no_id_found).
Proof.
  intros Hid Ht; unfold Lesson5.checkForId, Lesson6.checkForId, cbind.
  rewrite Hid, Ht; split; reflexivity.
Qed.

Lemma lesson5_falsy_payload
    (JSON_parse : HostParse) (input : js_string)
    (props : list (js_string * JsValue)) :
  FalsyId props ->
  JSON_parse input = Normal (JObject props) ->
  Lesson5.handleRequest JSON_parse (mkRequest input) resSpy []
    = ([(400%Z, JString (js "No id found"))], Normal tt).
Proof.
  intros Hf Hp; destruct (FalsyId_get_id Hf) as (id & Hid & Ht).
  rewrite (validating_parse_falsy (h := fun P => Lesson5.handleRequest P)
             JSON_parse resSpy (mkRequest input) []
             (data := JObject props) (id := id)); auto.
  - simpl; auto.
  - now apply jsonParse_parsed.
Qed.

(** C8. For every parsed object whose [id] is falsy (absent, the empty
    string, a zero, [false] or [null]), [checkForId] returns the failure
    variant with Error("No id found"), the same for a missing [id] and a
    falsy one; a body that parses to such an object goes through the
    lesson-5 handler to status 400 and message "No id found". *)
Theorem checkForId_rejects_falsy_id (props : list (js_string * JsValue)) :
  FalsyId props ->
  Lesson5.checkForId (JObject props) = Normal (err no_id_found)
  /\ Lesson6.checkForId (JObject props) = Normal (err no_id_found)
  /\ forall (JSON_parse : HostParse) (input : js_string),
       JSON_parse input = Normal (JObject props) ->
       Lesson5.handleRequest JSON_parse (mkRequest input) resSpy []
         = ([(400%Z, JString (js "No id found"))], Normal tt).
Proof.
  intros Hf; destruct (FalsyId_get_id Hf) as (id & Hid & Ht).
  destruct (checkForId_falsy _ Hid Ht) as [H5 H6].
  split; [exact H5 | split; [exact H6 |]].
  intros JSON_parse input Hp.
  exact (lesson5_falsy_payload JSON_parse input Hf Hp).
Qed.

Lemma checkForId_rejects_falsy_id_witness :
  FalsyId [(js "id", JString [])]
  /\ JSON.parse body_empty_id = Normal (JObject [(js "id", JString [])])
  /\ Lesson5.handleRequest JSON.parse (mkRequest body_empty_id) resSpy []
       = ([(400%Z, JString (js "No id found"))], Normal tt).
Proof.
  assert (Hf : FalsyId [(js "id", JString [])])
    by (apply id_empty_string; reflexivity).
  assert (Hp : JSON.parse body_empty_id
               = Normal (JObject [(js "id", JString [])]))
    by (vm_compute; reflexivity).
  split; [exact Hf | split; [exact Hp |]].
  exact (proj2 (proj2 (checkForId_rejects_falsy_id Hf)) JSON.parse _ Hp).
Defined.

(** C9. When the body is valid JSON that parses to [null] (or when the
    host hands back [undefined]), the lesson-5 handler never calls [res]:
    [jsonParse] succeeds, and reading [data.id] in [checkForId] throws a
    TypeError that leaves the handler.  It is [checkForId] that throws:
    called on the payload it throws that TypeError, and the chain has
    already ended with it after [andThen(checkForId)], before [map] and
    [mapErr] are reached. *)
Theorem lesson5_null_payload_escapes
    (JSON_parse : HostParse) (input : js_string) (data : JsValue)
    (W : Type) (impl : Res W) (w : W) :
  JSON_parse input = Normal data ->
  data = JNull \/ data = JUndefined ->
  jsonParse JSON_parse input = Normal (ok data)
  /\ exists e,
       constructor e = TypeError
       /\ Lesson5.checkForId data = Throw e
       /\ (lift (jsonParse JSON_parse input)
             >>= andThen (fun d => lift (Lesson5.checkForId d)))
            (@nil Call, w)
            = (([], w), Throw e)
       /\ Lesson5.handleRequest JSON_parse (mkRequest input) (fn impl) ([], w)
            = (([], w), Throw e).
Proof.
  intros Hp Hd.
  assert (Hj := jsonParse_parsed JSON_parse input Hp).
  split; [exact Hj |].
  assert (Hid : exists e, constructor e = TypeError /\ get_id data = Throw e).
  { destruct Hd as [-> | ->]; eexists; (split; [| reflexivity]); reflexivity. }
  destruct Hid as (e & He & Hid); exists e; split; [exact He |].
  assert (Hcheck : Lesson5.checkForId data = Throw e)
    by (unfold Lesson5.checkForId, cbind; rewrite Hid; reflexivity).
  split; [exact Hcheck | split].
  - unfold bind, lift, andThen; rewrite Hj, Hcheck; reflexivity.
  - apply (handler_id_fatal (h := fun P => Lesson5.handleRequest P)
             JSON_parse (fn impl) (mkRequest input) ([], w) (data := data));
      auto.
    simpl; auto 10.
Qed.

Lemma lesson5_null_payload_escapes_witness :
  JSON.parse body_null = Normal JNull
  /\ jsonParse JSON.parse body_null = Normal (ok JNull)
  /\ exists e,
       constructor e = TypeError
       /\ Lesson5.checkForId JNull = Throw e
       /\ (lift (jsonParse JSON.parse body_null)
             >>= andThen (fun d => lift (Lesson5.checkForId d)))
            (@nil Call, tt)
            = (([], tt), Throw e)
       /\ Lesson5.handleRequest JSON.parse (mkRequest body_null)
            (fn (fun _ _ => ret tt)) ([], tt)
            = (([], tt), Throw e).
Proof.
  assert (Hp : JSON.parse body_null = Normal JNull)
    by (vm_compute; reflexivity).
  split; [exact Hp |].
  exact (@lesson5_null_payload_escapes JSON.parse body_null JNull
           unit (fun _ _ => ret tt) tt Hp (or_introl eq_refl)).
Defined.

(** C10. In the handlers with no [checkForId] (both lesson-3 variants,
    lessons 4 and 4.5), a body that parses to an object without an [id]
    is answered with status 200 and the message [undefined], which is no
    string; the lesson-5 handler answers the same body with status 400. *)
Theorem unvalidated_missing_id_gives_200_undefined
    (JSON_parse : HostParse) (input : js_string)
    (props : list (js_string * JsValue)) (h : Handler (list Call)) :
  JSON_parse input = Normal (JObject props) ->
  lookup (js "id") props = None ->
  In h (unvalidated_handlers (list Call)) ->
  h JSON_parse (mkRequest input) resSpy [] = ([(200%Z, JUndefined)], Normal tt)
  /\ (forall s, JUndefined <> JString s)
  /\ Lesson5.handleRequest JSON_parse (mkRequest input) resSpy []
       = ([(400%Z, JString (js "No id found"))], Normal tt).
Proof.
  intros Hp Hid Hin.
  assert (Hj := jsonParse_parsed JSON_parse input Hp).
  assert (Hg : get_id (JObject props) = Normal JUndefined)
    by (unfold get_id; rewrite Hid; reflexivity).
  split; [| split].
  - rewrite (unvalidated_parse_ok JSON_parse resSpy (mkRequest input) []
               Hin (data := JObject props) (id := JUndefined)); auto.
  - discriminate.
  - exact (lesson5_falsy_payload JSON_parse input (id_absent _ Hid) Hp).
Qed.

Lemma unvalidated_missing_id_gives_200_undefined_witness :
  JSON.parse body_empty_object = Normal (JObject [])
  /\ Lesson4_5.handleRequest JSON.parse (mkRequest body_empty_object)
       resSpy []
       = ([(200%Z, JUndefined)], Normal tt)
  /\ Lesson5.handleRequest JSON.parse (mkRequest body_empty_object)
       resSpy []
       = ([(400%Z, JString (js "No id found"))], Normal tt).
Proof.
  assert (Hp : JSON.parse body_empty_object = Normal (JObject []))
    by (vm_compute; reflexivity).
  assert (Hin : In (fun P => Lesson4_5.handleRequest P)
                  (unvalidated_handlers (list Call)))
    by (simpl; auto).
  destruct (@unvalidated_missing_id_gives_200_undefined
              JSON.parse body_empty_object [] _ Hp eq_refl Hin)
    as (H200 & _ & H400).
  split; [exact Hp | split; [exact H200 | exact H400]].
Defined.

(* ================================================================== *)
(** ** One outcome per request                                         *)
(* ================================================================== *)

(** What a spy has seen after one call of [res] that was the whole of a
    handler's effect. *)
Lemma single_call_recorded {W} (impl : Res W) status message w calls w' :
  (let (s, c) := fn impl status message ([], w) in
   (s, cbind c (fun _ => Normal tt)))
    = ((calls, w'), Normal tt) ->
  calls = [(status, message)].
Proof.
  unfold fn; destruct (impl status message w) as [w1 [[]|x]]; cbn;
    intros H; inversion H; reflexivity.
Qed.

Lemma match_calls_one_callback {W T E U}
    (onOk : T -> Eff W U) (onErr : E -> Eff W U) (v : T) (e : E) (w : W) :
  count_of (match_ (watch false onOk) (watch true onErr) (Ok v) (0%nat, w))
    = 0%nat
  /\ count_of (match_ (watch true onOk) (watch false onErr) (Ok v) (0%nat, w))
    = 1%nat
  /\ count_of (match_ (watch true onOk) (watch false onErr) (Err e) (0%nat, w))
    = 0%nat
  /\ count_of (match_ (watch false onOk) (watch true onErr) (Err e) (0%nat, w))
    = 1%nat.
Proof.
  unfold match_, watch, count_of.
  destruct (onOk v w) as [w1 c1], (onErr e w) as [w2 c2].
  repeat split.
Qed.

(** C4. Whatever the host's parser and whatever [res] does, a handler of
    any lesson that returns (no error escapes it) has called [res] exactly
    once, either with status 200 or with status 400; and [match] runs
    exactly one of its two callbacks: on a success Result the failure
    callback is called zero times and the success callback once, and the
    other way round on a failure Result. *)
Theorem handleRequest_exactly_one_outcome :
  (forall (JSON_parse : HostParse) (W : Type) (impl : Res W)
          (h : Handler (list Call * W)) (req : Request) (w w' : W)
          (calls : list Call),
      In h (all_handlers (list Call * W)) ->
      h JSON_parse req (fn impl) ([], w) = ((calls, w'), Normal tt) ->
      exists message,
        calls = [(200%Z, message)] \/ calls = [(400%Z, message)])
  /\ (forall (W T E U : Type) (onOk : T -> Eff W U) (onErr : E -> Eff W U)
             (v : T) (e : E) (w : W),
        count_of (match_ (watch false onOk) (watch true onErr) (Ok v)
                    (0%nat, w)) = 0%nat
        /\ count_of (match_ (watch true onOk) (watch false onErr) (Ok v)
                       (0%nat, w)) = 1%nat
        /\ count_of (match_ (watch true onOk) (watch false onErr) (Err e)
                       (0%nat, w)) = 0%nat
        /\ count_of (match_ (watch false onOk) (watch true onErr) (Err e)
                       (0%nat, w)) = 1%nat).
Proof.
  split; [| intros; apply match_calls_one_callback].
  intros JSON_parse W impl h req w w' calls Hin Hrun.
  destruct (jsonParse JSON_parse (body req)) as [[data | e] | e] eqn:Hj.
  - destruct (get_id data) as [id | e] eqn:Hid.
    + unfold all_handlers in Hin; apply in_app_or in Hin as [Hu | Hv].
      * rewrite (unvalidated_parse_ok JSON_parse (fn impl) req ([], w)
                   Hu Hj Hid) in Hrun.
        apply single_call_recorded in Hrun; eauto.
      * destruct (ToBoolean id) eqn:Ht.
        -- rewrite (validating_parse_ok JSON_parse (fn impl) req ([], w)
                      Hv Hj Hid Ht) in Hrun.
           apply single_call_recorded in Hrun; eauto.
        -- rewrite (validating_parse_falsy JSON_parse (fn impl) req ([], w)
                      Hv Hj Hid Ht) in Hrun.
           apply single_call_recorded in Hrun; eauto.
    + rewrite (handler_id_fatal JSON_parse (fn impl) req ([], w) Hin Hj Hid)
        in Hrun.
      discriminate.
  - rewrite (handler_parse_err JSON_parse (fn impl) req ([], w) Hin Hj)
      in Hrun.
    apply single_call_recorded in Hrun; eauto.
  - rewrite (handler_parse_fatal JSON_parse (fn impl) req ([], w) Hin Hj)
      in Hrun.
    discriminate.
Qed.

Lemma handleRequest_exactly_one_outcome_witness :
  In (fun P => Lesson4.handleRequest P) (all_handlers (list Call * unit))
  /\ Lesson4.handleRequest JSON.parse (mkRequest body_with_id)
       (fn (fun _ _ => ret tt)) ([], tt)
       = (([(200%Z, JString (js "123"))], tt), Normal tt)
  /\ exists message,
       [(200%Z, JString (js "123"))] = [(200%Z, message)]
       \/ [(200%Z, JString (js "123"))] = [(400%Z, message)].
Proof.
  assert (Hin : In (fun P => Lesson4.handleRequest P)
                  (all_handlers (list Call * unit)))
    by (simpl; auto).
  assert (Hrun : Lesson4.handleRequest JSON.parse (mkRequest body_with_id)
                   (fn (fun _ _ => ret tt)) ([], tt)
                 = (([(200%Z, JString (js "123"))], tt), Normal tt))
    by (vm_compute; reflexivity).
  split; [exact Hin | split; [exact Hrun |]].
  exact (proj1 handleRequest_exactly_one_outcome JSON.parse unit
           (fun _ _ => ret tt) _ (mkRequest body_with_id) tt tt _ Hin Hrun).
Defined.

(* ================================================================== *)
(** ** Laws of the combinators                                         *)
(* ================================================================== *)

Section Chains.
Context {W T E : Type}.
Implicit Types (steps : list (T -> Eff W (Result T E))) (r : Result T E).

Lemma andThen_all_Err steps (e : E) (w : W) :
  andThen_all steps (Err e) w = (w, Normal (Err e)).
Proof.
  induction steps as [| f steps IH]; [reflexivity |].
  cbn [andThen_all]; unfold bind at 1; cbn; apply IH.
Qed.

Lemma andThen_all_app before after r (w : W) :
  andThen_all (before ++ after) r w
    = (andThen_all before r >>= andThen_all after) w.
Proof.
  revert r w; induction before as [| f before IH]; intros r w.
  - cbn; reflexivity.
  - cbn [andThen_all app]; unfold bind.
    destruct (andThen f r w) as [w1 [r1 | x]]; [| reflexivity].
    rewrite IH; reflexivity.
Qed.

End Chains.

Section WatchedChains.
Context {W T E : Type}.
Implicit Types (steps : list (T -> Eff W (Result T E))) (r : Result T E).

(** Steps that run beside the counter leave it alone. *)
Lemma andThen_all_unwatched steps r (n : nat) (w : W) :
  andThen_all (List.map (watch false) steps) r (n, w)
    = let (w', c) := andThen_all steps r w in ((n, w'), c).
Proof.
  revert r w; induction steps as [| f steps IH]; intros r w.
  - reflexivity.
  - destruct r as [v | e].
    + cbn [andThen_all List.map]; unfold bind, andThen, watch at 1.
      destruct (f v w) as [w1 [r1 | x]]; [apply IH | reflexivity].
    + rewrite !andThen_all_Err; reflexivity.
Qed.
End WatchedChains.

(** C6. [andThen] on a failure Result gives the same failure back and does
    not call its function: whatever [f] does, neither the caller's state
    nor a call counter on [f] moves.  In a chain of [andThen] calls, once
    a step has given a failure, that failure is the chain's result, and
    none of the later steps is called.  So in the lesson-5 handler a
    failure of [jsonParse] passes [andThen(checkForId)] and reaches
    [mapErr] as it is. *)
Theorem andThen_short_circuits :
  (forall (W T U E : Type) (e : E) (f : T -> Eff W (Result U E)) (w : W),
      andThen f (Err e) w = (w, Normal (err e))
      /\ count_of (andThen (watch true f) (Err e) (0%nat, w)) = 0%nat)
  /\ (forall (W T E : Type) (e : E)
             (before after : list (T -> Eff W (Result T E)))
             (r : Result T E) (w w' : W),
        andThen_all before r w = (w', Normal (Err e)) ->
        andThen_all (before ++ after) r w = (w', Normal (err e))
        /\ count_of
             (andThen_all
                (List.map (watch false) before ++ List.map (watch true) after)
                r (0%nat, w)) = 0%nat)
  /\ (forall (JSON_parse : HostParse) (req : Request) (e : JsError),
        jsonParse JSON_parse (body req) = Normal (Err e) ->
        Lesson5.handleRequest JSON_parse req resSpy []
          = ([(400%Z, JString (message e))], Normal tt)).
Proof.
  split; [| split].
  - intros W T U E e f w; split; reflexivity.
  - intros W T E e before after r w w' Hfail; split.
    + rewrite andThen_all_app; unfold bind; rewrite Hfail.
      apply andThen_all_Err.
    + rewrite andThen_all_app; unfold bind.
      rewrite andThen_all_unwatched, Hfail.
      rewrite andThen_all_Err; reflexivity.
  - intros JSON_parse req e Hj.
    rewrite (handler_parse_err (h := fun P => Lesson5.handleRequest P)
               JSON_parse resSpy req [] (e := e)); auto.
    simpl; auto 10.
Qed.

Lemma andThen_short_circuits_witness :
  let check := fun data : JsValue => lift (W := unit) (Lesson5.checkForId data) in
  andThen_all [check] (Ok (JObject [])) tt = (tt, Normal (Err no_id_found))
  /\ andThen_all ([check] ++ [check; check]) (Ok (JObject [])) tt
       = (tt, Normal (err no_id_found))
  /\ count_of
       (andThen_all
          (List.map (watch false) [check]
             ++ List.map (watch true) [check; check])
          (Ok (JObject [])) (0%nat, tt)) = 0%nat.
Proof.
  intros check.
  assert (H : andThen_all [check] (Ok (JObject [])) tt
              = (tt, Normal (Err no_id_found))) by reflexivity.
  split; [exact H |].
  exact (proj1 (proj2 andThen_short_circuits) unit JsValue JsError
           no_id_found [check] [check; check] (Ok (JObject [])) tt tt H).
Defined.

(** C7. [map] with the identity on a success Result and [mapErr] with the
    identity on a failure Result give the Result back; [map] on a failure
    Result gives the same failure back, payload untouched, without
    calling its function, and so does [mapErr] on a success Result.  So
    in the lesson-4 handler a failure of [jsonParse] passes [map] and
    reaches [mapErr] as it is. *)
Theorem map_identity_and_pass_through :
  (forall (W T E : Type) (v : T) (w : W),
      map (pure (fun x => x)) (Ok v : Result T E) w = (w, Normal (ok v)))
  /\ (forall (W T E : Type) (e : E) (w : W),
        mapErr (pure (fun x => x)) (Err e : Result T E) w
          = (w, Normal (err e)))
  /\ (forall (W T E U : Type) (f : T -> Eff W U) (e : E) (w : W),
        map f (Err e) w = (w, Normal (err e))
        /\ count_of (map (watch true f) (Err e) (0%nat, w)) = 0%nat)
  /\ (forall (W T E F : Type) (f : E -> Eff W F) (v : T) (w : W),
        mapErr f (Ok v) w = (w, Normal (ok v))
        /\ count_of (mapErr (watch true f) (Ok v) (0%nat, w)) = 0%nat)
  /\ (forall (JSON_parse : HostParse) (req : Request) (e : JsError),
        jsonParse JSON_parse (body req) = Normal (Err e) ->
        Lesson4.handleRequest JSON_parse req resSpy []
          = ([(400%Z, JString (message e))], Normal tt)).
Proof.
  do 4 (split; [intros; try split; reflexivity |]).
  intros JSON_parse req e Hj.
  rewrite (handler_parse_err (h := fun P => Lesson4.handleRequest P)
             JSON_parse resSpy req [] (e := e)); auto.
  simpl; auto 10.
Qed.

Lemma map_identity_and_pass_through_witness :
  jsonParse JSON.parse (body (mkRequest body_invalid))
    = Normal (Err (new SyntaxError invalid_json_text))
  /\ Lesson4.handleRequest JSON.parse (mkRequest body_invalid) resSpy []
       = ([(400%Z, JString invalid_json_text)], Normal tt).
Proof.
  assert (Hj : jsonParse JSON.parse (body (mkRequest body_invalid))
               = Normal (Err (new SyntaxError invalid_json_text)))
    by (vm_compute; reflexivity).
  split; [exact Hj |].
  exact (proj2 (proj2 (proj2 (proj2 map_identity_and_pass_through)))
           JSON.parse (mkRequest body_invalid) _ Hj).
Defined.

(* ================================================================== *)
(** ** The reference parser always answers                             *)
(* ================================================================== *)

Module JSONFacts.
Import JSON.

Lemma within_weaken {A} (r : Scan A) (b b' : nat) :
  within r b -> b <= b' -> within r b'.
Proof. destruct r; simpl; auto; lia. Qed.

Lemma within_map {A B} (f : A -> B) (r : Scan A) (b : nat) :
  within r b -> within (scan_map f r) b.
Proof. destruct r; simpl; auto. Qed.

Lemma skip_ws_length s : List.length (skip_ws s) <= List.length s.
Proof.
  induction s as [| c s IH]; simpl; [lia |].
  destruct (is_ws c); simpl; lia.
Qed.

Lemma skip_ws_cons s c rest :
  skip_ws s = c :: rest -> S (List.length rest) <= List.length s.
Proof.
  intros H; generalize (skip_ws_length s); rewrite H; simpl; lia.
Qed.

Lemma scan_string_within_upto m :
  forall s, List.length s <= m -> within (scan_string s) (List.length s).
Proof.
  induction m as [| m IH]; intros s Hs.
  - destruct s; [exact I | simpl in Hs; lia].
  - destruct s as [| c rest]; [exact I |].
    simpl in Hs; cbn [scan_string].
    destruct (N.eqb c 34); [simpl; lia |].
    destruct (N.ltb c 32); [exact I |].
    destruct (N.eqb c 92).
    + destruct rest as [| e rest1]; [exact I |].
      destruct (N.eqb e 117).
      * destruct rest1 as [| h1 [| h2 [| h3 [| h4 rest2]]]]; try exact I.
        destruct (hex4 h1 h2 h3 h4); [| exact I].
        apply within_map.
        apply within_weaken with (b := List.length rest2);
          [apply IH; simpl in Hs; lia | simpl; lia].
      * destruct (escape e); [| exact I].
        apply within_map.
        apply within_weaken with (b := List.length rest1);
          [apply IH; simpl in Hs; lia | simpl; lia].
    + apply within_map.
      apply within_weaken with (b := List.length rest);
        [apply IH; lia | simpl; lia].
Qed.

Lemma scan_string_within s : within (scan_string s) (List.length s).
Proof. apply (@scan_string_within_upto (List.length s)); lia. Qed.

Lemma scan_digits_length s v k :
  List.length (snd (scan_digits s v k)) <= List.length s.
Proof.
  revert v k; induction s as [| c s IH]; intros v k; simpl; [lia |].
  destruct (is_digit c); simpl; [| lia].
  specialize (IH (v * 10 + (c - 48))%N (S k)); lia.
Qed.

Lemma scan_literal_within w word s :
  within (scan_literal (w :: word) s) (List.length s).
Proof.
  assert (H : forall word s,
             within (scan_literal word s) (S (List.length s))).
  { clear; induction word as [| w word IH]; intros s; simpl; [lia |].
    destruct s as [| c s]; [exact I |].
    destruct (N.eqb c w); [| exact I].
    eapply within_weaken; [apply IH | simpl; lia]. }
  simpl; destruct s as [| c s]; [exact I |].
  destruct (N.eqb c w); [| exact I].
  eapply within_weaken; [apply H | simpl; lia].
Qed.

Lemma scan_int_within s : within (scan_int s) (List.length s).
Proof.
  destruct s as [| c rest]; [exact I |]; unfold scan_int.
  destruct (is_digit c) eqn:Hd; [| exact I]; cbn [negb].
  destruct (N.eqb c 48); [simpl; lia |].
  cbn [scan_digits]; rewrite Hd.
  generalize (scan_digits_length rest (0 * 10 + (c - 48))%N 1).
  destruct (scan_digits rest (0 * 10 + (c - 48))%N 1) as [[int k] s'].
  simpl; lia.
Qed.

Lemma scan_fraction_within int s :
  within (scan_fraction int s) (S (List.length s)).
Proof.
  destruct s as [| d rest]; [simpl; lia |]; unfold scan_fraction.
  destruct (N.eqb d 46); [| simpl; lia].
  generalize (scan_digits_length rest int 0).
  destruct (scan_digits rest int 0) as [[m k] s'].
  destruct k; [intros; exact I | simpl; lia].
Qed.

Lemma scan_exponent_within s :
  within (scan_exponent s) (S (List.length s)).
Proof.
  destruct s as [| e rest]; [simpl; lia |]; unfold scan_exponent.
  destruct (N.eqb e 101 || N.eqb e 69); [| simpl; lia].
  destruct rest as [| g rest'].
  - simpl; exact I.
  - destruct (N.eqb g 45); [| destruct (N.eqb g 43)];
      match goal with
      | |- context [scan_digits ?s1 0 0] =>
          generalize (scan_digits_length s1 0 0);
          destruct (scan_digits s1 0 0) as [[x j] s2];
          destruct j; [intros; exact I | simpl; lia]
      end.
Qed.

Lemma scan_number_within s : within (scan_number s) (List.length s).
Proof.
  unfold scan_number.
  assert (H : forall neg s1, List.length s1 <= List.length s ->
            within
              match scan_int s1 with
              | Accept int s2 =>
                  match scan_fraction int s2 with
                  | Accept (m, k) s3 =>
                      match scan_exponent s3 with
                      | Accept x s4 => Accept (mkNumber neg m (x - k)) s4
                      | Reject f => Reject f
                      | Exhausted => Exhausted
                      end
                  | Reject f => Reject f
                  | Exhausted => Exhausted
                  end
              | Reject f => Reject f
              | Exhausted => Exhausted
              end (List.length s)).
  { intros neg s1 H1.
    generalize (scan_int_within s1).
    destruct (scan_int s1) as [int s2 | f |]; simpl; auto.
    intros H2; generalize (scan_fraction_within int s2).
    destruct (scan_fraction int s2) as [[m k] s3 | f |]; simpl; auto.
    intros H3; generalize (scan_exponent_within s3).
    destruct (scan_exponent s3) as [x s4 | f |]; simpl; auto.
    lia. }
  destruct s as [| c rest].
  - exact I.
  - destruct (N.eqb c 45); apply H; simpl; lia.
Qed.

(** With a budget of twice the length and one more, [scan_value] ends
    and consumes something; two more are enough for the loops. *)
Lemma scan_budget depth :
  (forall s, 2 * List.length s + 1 <= depth ->
     within (scan_value depth s) (List.length s))
  /\ (forall s seen, 2 * List.length s + 2 <= depth ->
        within (scan_elements depth s seen) (List.length s))
  /\ (forall s seen, 2 * List.length s + 2 <= depth ->
        within (scan_members depth s seen) (List.length s)).
Proof.
  induction depth as [| d (IHv & IHe & IHm)].
  - repeat split; intros; lia.
  - split; [| split].
    + intros s Hd; cbn [scan_value].
      destruct (skip_ws s) as [| c rest] eqn:Hs; [exact I |].
      apply skip_ws_cons in Hs.
      destruct (N.eqb c 123).
      { destruct (skip_ws rest) as [| c' rest'] eqn:Hr; [exact I |].
        apply skip_ws_cons in Hr.
        destruct (N.eqb c' 125); [simpl; lia |].
        eapply within_weaken; [apply IHm; simpl; lia | simpl; lia]. }
      destruct (N.eqb c 91).
      { destruct (skip_ws rest) as [| c' rest'] eqn:Hr; [exact I |].
        apply skip_ws_cons in Hr.
        destruct (N.eqb c' 93); [simpl; lia |].
        eapply within_weaken; [apply IHe; simpl; lia | simpl; lia]. }
      destruct (N.eqb c 34).
      { apply within_map; eapply within_weaken;
          [apply scan_string_within | lia]. }
      destruct (N.eqb c 45 || is_digit c).
      { apply within_map; eapply within_weaken;
          [apply scan_number_within | simpl; lia]. }
      destruct (N.eqb c 116).
      { apply within_map; eapply within_weaken;
          [apply scan_literal_within | simpl; lia]. }
      destruct (N.eqb c 102).
      { apply within_map; eapply within_weaken;
          [apply scan_literal_within | simpl; lia]. }
      destruct (N.eqb c 110).
      { apply within_map; eapply within_weaken;
          [apply scan_literal_within | simpl; lia]. }
      exact I.
    + intros s seen Hd; cbn [scan_elements].
      assert (Hv : within (scan_value d s) (List.length s))
        by (apply IHv; lia).
      destruct (scan_value d s) as [v rest | f |]; simpl in Hv;
        [| exact I | contradiction].
      destruct (skip_ws rest) as [| c rest'] eqn:Hr; [exact I |].
      apply skip_ws_cons in Hr.
      destruct (N.eqb c 44).
      { eapply within_weaken; [apply IHe; lia | lia]. }
      destruct (N.eqb c 93); [simpl; lia | exact I].
    + intros s seen Hd; cbn [scan_members].
      destruct (skip_ws s) as [| q rest] eqn:Hs; [exact I |].
      apply skip_ws_cons in Hs.
      destruct (negb (N.eqb q 34)); [exact I |].
      generalize (scan_string_within rest).
      destruct (scan_string rest) as [key rest1 | f |]; simpl;
        [intros H1 | auto | auto].
      destruct (skip_ws rest1) as [| colon rest2] eqn:H2; [exact I |].
      apply skip_ws_cons in H2.
      destruct (negb (N.eqb colon 58)); [exact I |].
      assert (Hv : within (scan_value d rest2) (List.length rest2))
        by (apply IHv; lia).
      destruct (scan_value d rest2) as [v rest3 | f |]; simpl in Hv;
        [| exact I | contradiction].
      destruct (skip_ws rest3) as [| c rest4] eqn:H4; [exact I |].
      apply skip_ws_cons in H4.
      destruct (N.eqb c 44).
      { eapply within_weaken; [apply IHm; lia | lia]. }
      destruct (N.eqb c 125); [simpl; lia | exact I].
Qed.

Lemma scan_value_budget text :
  scan_value (budget text) text <> Exhausted.
Proof.
  intros H.
  assert (Hw := proj1 (scan_budget (budget text)) text).
  rewrite H in Hw; apply Hw; unfold budget; lia.
Qed.

(** The reference parser returns a value or throws a SyntaxError. *)
Lemma parse_total text :
  (exists v, parse text = Normal v)
  \/ (exists e, parse text = Throw e /\ instanceof e SyntaxError = true).
Proof.
  unfold parse; generalize (scan_value_budget text).
  destruct (scan_value (budget text) text) as [v rest | f |]; intros H.
  - destruct (skip_ws rest); [left | right]; eauto.
  - right; eauto.
  - contradiction.
Qed.

End JSONFacts.

(** On the reference host [jsonParse] always returns a Result. *)
Lemma jsonParse_total input :
  exists r, jsonParse JSON.parse input = Normal r.
Proof.
  destruct (JSONFacts.parse_total input) as [(v & Hv) | (e & He & Hs)].
  - exists (Ok v); now apply jsonParse_parsed.
  - exists (Err e); now apply jsonParse_syntax_error.
Qed.


(* ================================================================== *)
(** ** The tests of lessons 1 and 1.2, run on the reference host       *)
(* ================================================================== *)

Example lesson1_should_parse_json :
  let result :=
    jsonParse JSON.parse
      (js "{" ++ quoted "key" ++ js ": " ++ quoted "value" ++ js "}") in
  cbind result (fun r => Normal (isOk r)) = Normal true
  /\ cbind result (fun r => Normal (value r))
       = Normal (Some (JObject [(js "key", JString (js "value"))])).
Proof. split; vm_compute; reflexivity. Qed.

Example lesson1_should_return_an_error :
  let result := jsonParse JSON.parse body_invalid in
  cbind result (fun r => Normal (isErr r)) = Normal true
  /\ cbind result
       (fun r =>
          Normal
            match error r with
            | Some e => instanceof e SyntaxError
            | None => false
            end) = Normal true.
Proof. split; vm_compute; reflexivity. Qed.

(* ================================================================== *)
(** ** Further properties of the lessons                               *)
(* ================================================================== *)

(** What the spy holds after a handler answered with one call. *)
Lemma once_recorded {W} (impl : Res W) status message w calls w' c :
  once (fn impl) status message ([], w) = ((calls, w'), c) ->
  calls = [(status, message)].
Proof.
  unfold once, fn; destruct (impl status message w) as [w1 c1]; cbn.
  intros H; inversion H; reflexivity.
Qed.

Lemma once_resSpy status message :
  once resSpy status message [] = ([(status, message)], Normal tt).
Proof. reflexivity. Qed.

(** Every run of every handler is of one of four kinds: it stops before
    [res] with an error, or it answers once with 200 and the payload's
    [id], or once with 400 and "No id found", or once with 400 and the
    text of the parser's SyntaxError. *)
Lemma handler_outcome (JSON_parse : HostParse) {W} (h : Handler W)
    (req : Request) (res : Res W) (w : W) :
  In h (all_handlers W) ->
  (exists e,
      h JSON_parse req res w = (w, Throw e)
      /\ (jsonParse JSON_parse (body req) = Throw e
          \/ exists data,
               jsonParse JSON_parse (body req) = Normal (Ok data)
               /\ get_id data = Throw e))
  \/ (exists data id,
        jsonParse JSON_parse (body req) = Normal (Ok data)
        /\ get_id data = Normal id
        /\ (In h (unvalidated_handlers W) \/ ToBoolean id = true)
        /\ h JSON_parse req res w = once res 200%Z id w)
  \/ (exists data id,
        jsonParse JSON_parse (body req) = Normal (Ok data)
        /\ get_id data = Normal id
        /\ In h (validating_handlers W)
        /\ ToBoolean id = false
        /\ h JSON_parse req res w
             = once res 400%Z (JString (js "No id found")) w)
  \/ (exists e,
        jsonParse JSON_parse (body req) = Normal (Err e)
        /\ h JSON_parse req res w
             = once res 400%Z (JString (message e)) w).
Proof.
  intros Hin.
  destruct (jsonParse JSON_parse (body req)) as [[data | e] | e] eqn:Hj.
  - destruct (get_id data) as [id | e] eqn:Hid.
    + pose proof Hin as Hin'.
      unfold all_handlers in Hin'; apply in_app_or in Hin' as [Hu | Hv].
      * right; left; exists data, id; repeat split; auto.
        now apply unvalidated_parse_ok with (data := data).
      * destruct (ToBoolean id) eqn:Ht.
        -- right; left; exists data, id; repeat split; auto.
           now apply validating_parse_ok with (data := data).
        -- right; right; left; exists data, id; repeat split; auto.
           now apply validating_parse_falsy with (data := data) (id := id).
    + left; exists e; split; [| right; exists data; auto].
      now apply handler_id_fatal with (data := data).
  - right; right; right; exists e; split; auto.
    now apply handler_parse_err.
  - left; exists e; split; [| left; auto].
    now apply handler_parse_fatal.
Qed.

Lemma jsonParse_inv (JSON_parse : HostParse) input c :
  jsonParse JSON_parse input = c ->
  match c with
  | Normal (Ok v) => JSON_parse input = Normal v
  | Normal (Err e) =>
      JSON_parse input = Throw e /\ instanceof e SyntaxError = true
  | Throw e => JSON_parse input = Throw e /\ instanceof e SyntaxError = false
  end.
Proof.
  unfold jsonParse, try_catch, cbind.
  destruct (JSON_parse input) as [v | e]; [intros <-; reflexivity |].
  destruct (instanceof e SyntaxError) eqn:Hs; intros <-;
    (split; [reflexivity | exact Hs]).
Qed.

Lemma get_id_throw_inv data e :
  get_id data = Throw e -> data = JUndefined \/ data = JNull.
Proof.
  destruct data; simpl; auto; try discriminate.
  destruct (lookup (js "id") properties); discriminate.
Qed.

(** X1. The provenance of [jsonParse]'s Result, for any host parser: a
    success Result carries the very value [JSON.parse] returned, and a
    failure Result carries the very error [JSON.parse] threw, which is an
    instance of SyntaxError (the declared [Result<any, SyntaxError>]). *)
Theorem jsonParse_result_origin
    (JSON_parse : HostParse) (input : js_string)
    (r : Result JsValue JsError) :
  jsonParse JSON_parse input = Normal r ->
  match r with
  | Ok v => JSON_parse input = Normal v
  | Err e => JSON_parse input = Throw e /\ instanceof e SyntaxError = true
  end.
Proof. intros H; exact (jsonParse_inv JSON_parse input H). Qed.

Lemma jsonParse_result_origin_witness :
  jsonParse JSON.parse body_invalid
    = Normal (Err (new SyntaxError invalid_json_text))
  /\ JSON.parse body_invalid = Throw (new SyntaxError invalid_json_text)
  /\ instanceof (new SyntaxError invalid_json_text) SyntaxError = true.
Proof.
  assert (H : jsonParse JSON.parse body_invalid
              = Normal (Err (new SyntaxError invalid_json_text)))
    by (vm_compute; reflexivity).
  split; [exact H |].
  exact (@jsonParse_result_origin JSON.parse body_invalid _ H).
Defined.

Lemma checkForId_inv data r :
  Lesson5.checkForId data = Normal r ->
  exists id,
    get_id data = Normal id
    /\ match r with
       | Ok d => d = data /\ ToBoolean id = true
       | Err e => e = no_id_found /\ ToBoolean id = false
       end.
Proof.
  unfold Lesson5.checkForId, cbind.
  destruct (get_id data) as [id | e]; [| discriminate].
  destruct (ToBoolean id) eqn:Ht; cbn [negb]; intros H; inversion H; subst;
    exists id; (split; [reflexivity | split; [reflexivity | exact Ht]]).
Qed.

(** X2. What a Result of [checkForId] tells (lessons 5 and 6): a success
    Result carries the payload it was given, unchanged, and the payload's
    [id] is truthy; a failure Result carries Error("No id found") and the
    [id] is falsy.  In both cases [data.id] could be read. *)
Theorem checkForId_result_origin
    (check : JsValue -> Completion (Result JsValue JsError))
    (data : JsValue) (r : Result JsValue JsError) :
  In check checkers ->
  check data = Normal r ->
  exists id,
    get_id data = Normal id
    /\ match r with
       | Ok d => d = data /\ ToBoolean id = true
       | Err e => e = no_id_found /\ ToBoolean id = false
       end.
Proof.
  intros Hin H; destruct Hin as [<- | [<- | []]];
    exact (checkForId_inv data H).
Qed.

Lemma checkForId_result_origin_witness :
  let data := JObject [(js "id", JString (js "123"))] in
  In Lesson5.checkForId checkers
  /\ Lesson5.checkForId data = Normal (Ok data)
  /\ exists id,
       get_id data = Normal id /\ data = data /\ ToBoolean id = true.
Proof.
  intros data.
  assert (Hin : In Lesson5.checkForId checkers) by (simpl; auto).
  assert (H : Lesson5.checkForId data = Normal (Ok data)) by reflexivity.
  split; [exact Hin | split; [exact H |]].
  exact (@checkForId_result_origin Lesson5.checkForId data (Ok data) Hin H).
Defined.

(** X3. A payload that is a boolean, a number, a string or an array has
    no [id]: [checkForId] answers it with Error("No id found"), the
    validating handlers answer a body that parses to it with status 400
    and that message, and the handlers without validation answer it with
    status 200 and [undefined]. *)
Theorem non_object_payload_counts_as_missing_id (data : JsValue) :
  primitive_or_array data = true ->
  (forall check, In check checkers -> check data = Normal (err no_id_found))
  /\ forall (JSON_parse : HostParse) (input : js_string),
       JSON_parse input = Normal data ->
       (forall h, In h (validating_handlers (list Call)) ->
          h JSON_parse (mkRequest input) resSpy []
            = ([(400%Z, JString (js "No id found"))], Normal tt))
       /\ (forall h, In h (unvalidated_handlers (list Call)) ->
             h JSON_parse (mkRequest input) resSpy []
               = ([(200%Z, JUndefined)], Normal tt)).
Proof.
  intros Hp.
  assert (Hid : get_id data = Normal JUndefined)
    by (destruct data; try discriminate; reflexivity).
  split.
  - intros check [<- | [<- | []]];
      exact (proj1 (checkForId_falsy data Hid eq_refl))
      || exact (proj2 (checkForId_falsy data Hid eq_refl)).
  - intros JSON_parse input Hparse.
    assert (Hj := jsonParse_parsed JSON_parse input Hparse).
    split; intros h Hin.
    + rewrite (validating_parse_falsy JSON_parse resSpy (mkRequest input) []
                 Hin (data := data) (id := JUndefined)); auto.
    + rewrite (unvalidated_parse_ok JSON_parse resSpy (mkRequest input) []
                 Hin (data := data) (id := JUndefined)); auto.
Qed.

Lemma non_object_payload_counts_as_missing_id_witness :
  let n42 := JNumber (mkNumber false 42 0) in
  primitive_or_array n42 = true
  /\ JSON.parse (js "42") = Normal n42
  /\ Lesson5.handleRequest JSON.parse (mkRequest (js "42")) resSpy []
       = ([(400%Z, JString (js "No id found"))], Normal tt)
  /\ Lesson4.handleRequest JSON.parse (mkRequest (js "42")) resSpy []
       = ([(200%Z, JUndefined)], Normal tt).
Proof.
  intros n42.
  assert (Hp : primitive_or_array n42 = true) by reflexivity.
  assert (Hparse : JSON.parse (js "42") = Normal n42)
    by (vm_compute; reflexivity).
  destruct (proj2 (non_object_payload_counts_as_missing_id n42 Hp)
              JSON.parse (js "42") Hparse) as [Hv Hu].
  split; [exact Hp | split; [exact Hparse | split]].
  - apply (Hv (fun P => Lesson5.handleRequest P)); simpl; auto.
  - apply (Hu (fun P => Lesson4.handleRequest P)); simpl; auto.
Defined.

(** X4. The four ways of writing the handler without validation ([isOk]
    first, [isErr] first, [map] with [mapErr], [match]) are the same
    handler: for every host parser, request, [res] and state of the
    caller they end in the same state with the same completion.  The
    handlers of lessons 5 and 6 agree in the same way. *)
Theorem lesson_variants_behave_identically
    (JSON_parse : HostParse) (W : Type) (h1 h2 : Handler W)
    (req : Request) (res : Res W) (w : W) :
  (In h1 (unvalidated_handlers W) /\ In h2 (unvalidated_handlers W))
  \/ (In h1 (validating_handlers W) /\ In h2 (validating_handlers W)) ->
  h1 JSON_parse req res w = h2 JSON_parse req res w.
Proof.
  intros Hkind.
  assert (Hall : In h1 (all_handlers W) /\ In h2 (all_handlers W)).
  { unfold all_handlers; destruct Hkind as [[H1 H2] | [H1 H2]];
      split; apply in_or_app; auto. }
  destruct Hall as [A1 A2].
  destruct (jsonParse JSON_parse (body req)) as [[data | e] | e] eqn:Hj.
  - destruct (get_id data) as [id | e] eqn:Hid.
    + destruct Hkind as [[H1 H2] | [H1 H2]].
      * rewrite (unvalidated_parse_ok JSON_parse res req w H1 Hj Hid).
        rewrite (unvalidated_parse_ok JSON_parse res req w H2 Hj Hid).
        reflexivity.
      * destruct (ToBoolean id) eqn:Ht.
        -- rewrite (validating_parse_ok JSON_parse res req w H1 Hj Hid Ht).
           rewrite (validating_parse_ok JSON_parse res req w H2 Hj Hid Ht).
           reflexivity.
        -- rewrite (validating_parse_falsy JSON_parse res req w H1 Hj Hid Ht).
           rewrite (validating_parse_falsy JSON_parse res req w H2 Hj Hid Ht).
           reflexivity.
    + rewrite (handler_id_fatal JSON_parse res req w A1 Hj Hid).
      rewrite (handler_id_fatal JSON_parse res req w A2 Hj Hid).
      reflexivity.
  - rewrite (handler_parse_err JSON_parse res req w A1 Hj).
    rewrite (handler_parse_err JSON_parse res req w A2 Hj).
    reflexivity.
  - rewrite (handler_parse_fatal JSON_parse res req w A1 Hj).
    rewrite (handler_parse_fatal JSON_parse res req w A2 Hj).
    reflexivity.
Qed.

Lemma lesson_variants_behave_identically_witness :
  (In (fun P => Lesson3_1.handleRequest P) (unvalidated_handlers (list Call))
   /\ In (fun P => Lesson4_5.handleRequest P)
        (unvalidated_handlers (list Call)))
  /\ Lesson3_1.handleRequest JSON.parse (mkRequest body_invalid) resSpy []
       = Lesson4_5.handleRequest JSON.parse (mkRequest body_invalid)
           resSpy [].
Proof.
  assert (H : In (fun P => Lesson3_1.handleRequest P)
                (unvalidated_handlers (list Call))
              /\ In (fun P => Lesson4_5.handleRequest P)
                   (unvalidated_handlers (list Call)))
    by (split; simpl; auto).
  split; [exact H |].
  exact (@lesson_variants_behave_identically JSON.parse (list Call)
           (fun P => Lesson3_1.handleRequest P)
           (fun P => Lesson4_5.handleRequest P)
           (mkRequest body_invalid) resSpy [] (or_introl H)).
Defined.

(** X5. A validating handler (lessons 5 and 6) reports success only for
    a truthy [id]: whatever the host parser and whatever [res] does, if
    the spy saw a call with status 200, its message is the [id] of the
    value the parser returned, and that [id] is truthy (so never
    [undefined], [null], [false], a zero or the empty string). *)
Theorem validated_success_carries_truthy_id
    (JSON_parse : HostParse) (W : Type) (impl : Res W)
    (h : Handler (list Call * W)) (req : Request) (w w' : W)
    (calls : list Call) (c : Completion unit) (message : JsValue) :
  In h (validating_handlers (list Call * W)) ->
  h JSON_parse req (fn impl) ([], w) = ((calls, w'), c) ->
  In (200%Z, message) calls ->
  ToBoolean message = true
  /\ exists data,
       JSON_parse (body req) = Normal data /\ get_id data = Normal message.
Proof.
  intros Hin Hrun Hcall.
  assert (Hall : In h (all_handlers (list Call * W)))
    by (unfold all_handlers; apply in_or_app; auto).
  destruct (jsonParse JSON_parse (body req)) as [[data | e] | e] eqn:Hj.
  - destruct (get_id data) as [id | e] eqn:Hid.
    + destruct (ToBoolean id) eqn:Ht.
      * rewrite (validating_parse_ok JSON_parse (fn impl) req ([], w)
                   Hin Hj Hid Ht) in Hrun.
        apply (once_recorded impl) in Hrun; subst calls.
        destruct Hcall as [Heq | []]; inversion Heq; subst message.
        split; [exact Ht |].
        exists data; split; [| exact Hid].
        exact (jsonParse_inv JSON_parse (body req) Hj).
      * rewrite (validating_parse_falsy JSON_parse (fn impl) req ([], w)
                   Hin Hj Hid Ht) in Hrun.
        apply (once_recorded impl) in Hrun; subst calls.
        destruct Hcall as [Heq | []]; discriminate Heq.
    + rewrite (handler_id_fatal JSON_parse (fn impl) req ([], w) Hall Hj Hid)
        in Hrun.
      inversion Hrun; subst calls; destruct Hcall.
  - rewrite (handler_parse_err JSON_parse (fn impl) req ([], w) Hall Hj)
      in Hrun.
    apply (once_recorded impl) in Hrun; subst calls.
    destruct Hcall as [Heq | []]; discriminate Heq.
  - rewrite (handler_parse_fatal JSON_parse (fn impl) req ([], w) Hall Hj)
      in Hrun.
    inversion Hrun; subst calls; destruct Hcall.
Qed.

Lemma validated_success_carries_truthy_id_witness :
  Lesson5.handleRequest JSON.parse (mkRequest body_with_id)
    (fn (fun _ _ => ret tt)) ([], tt)
    = (([(200%Z, JString (js "123"))], tt), Normal tt)
  /\ ToBoolean (JString (js "123")) = true
  /\ exists data,
       JSON.parse (body (mkRequest body_with_id)) = Normal data
       /\ get_id data = Normal (JString (js "123")).
Proof.
  assert (Hrun : Lesson5.handleRequest JSON.parse (mkRequest body_with_id)
                   (fn (fun _ _ => ret tt)) ([], tt)
                 = (([(200%Z, JString (js "123"))], tt), Normal tt))
    by (vm_compute; reflexivity).
  split; [exact Hrun |].
  apply (@validated_success_carries_truthy_id JSON.parse unit
           (fun _ _ => ret tt) (fun P => Lesson5.handleRequest P)
           (mkRequest body_with_id) tt tt
           [(200%Z, JString (js "123"))] (Normal tt) (JString (js "123")));
    [simpl; auto | exact Hrun | simpl; auto].
Defined.

(** X6. Whatever a handler of any lesson reports with status 400 is a
    string: the text of the parser's SyntaxError or "No id found".  (A
    message with status 200 need not be one.) *)
Theorem status_400_message_is_a_string
    (JSON_parse : HostParse) (W : Type) (impl : Res W)
    (h : Handler (list Call * W)) (req : Request) (w w' : W)
    (calls : list Call) (c : Completion unit) (message : JsValue) :
  In h (all_handlers (list Call * W)) ->
  h JSON_parse req (fn impl) ([], w) = ((calls, w'), c) ->
  In (400%Z, message) calls ->
  exists text, message = JString text.
Proof.
  intros Hin Hrun Hcall.
  destruct (handler_outcome JSON_parse req (fn impl) ([], w) Hin)
    as [(e & He & _)
       | [(data & id & _ & _ & _ & He)
         | [(data & id & _ & _ & _ & _ & He) | (e & _ & He)]]];
    rewrite He in Hrun.
  - inversion Hrun; subst calls; destruct Hcall.
  - apply (once_recorded impl) in Hrun; subst calls.
    destruct Hcall as [Heq | []]; discriminate Heq.
  - apply (once_recorded impl) in Hrun; subst calls.
    destruct Hcall as [Heq | []]; inversion Heq; eauto.
  - apply (once_recorded impl) in Hrun; subst calls.
    destruct Hcall as [Heq | []]; inversion Heq; eauto.
Qed.

Lemma status_400_message_is_a_string_witness :
  Lesson3_1.handleRequest JSON.parse (mkRequest body_invalid)
    (fn (fun _ _ => ret tt)) ([], tt)
    = (([(400%Z, JString invalid_json_text)], tt), Normal tt)
  /\ exists text, JString invalid_json_text = JString text.
Proof.
  assert (Hrun : Lesson3_1.handleRequest JSON.parse (mkRequest body_invalid)
                   (fn (fun _ _ => ret tt)) ([], tt)
                 = (([(400%Z, JString invalid_json_text)], tt), Normal tt))
    by (vm_compute; reflexivity).
  split; [exact Hrun |].
  apply (@status_400_message_is_a_string JSON.parse unit
           (fun _ _ => ret tt) (fun P => Lesson3_1.handleRequest P)
           (mkRequest body_invalid) tt tt
           [(400%Z, JString invalid_json_text)] (Normal tt)
           (JString invalid_json_text));
    [simpl; auto | exact Hrun | simpl; auto].
Defined.

(** X7. A run of a handler of any lesson is either an error thrown before
    [res] was called, the caller's state untouched, or exactly one call
    of [res] with status 200 or 400 and nothing else: no second call, no
    work after the call, and an error only if [res] itself threw it. *)
Theorem handler_is_one_res_call_or_an_early_throw
    (JSON_parse : HostParse) (W : Type) (h : Handler W)
    (req : Request) (res : Res W) (w : W) :
  In h (all_handlers W) ->
  (exists e, h JSON_parse req res w = (w, Throw e))
  \/ (exists status message,
        (status = 200%Z \/ status = 400%Z)
        /\ h JSON_parse req res w = once res status message w).
Proof.
  intros Hin.
  destruct (handler_outcome JSON_parse req res w Hin)
    as [(e & He & _)
       | [(data & id & _ & _ & _ & He)
         | [(data & id & _ & _ & _ & _ & He) | (e & _ & He)]]].
  - left; eauto.
  - right; exists 200%Z, id; auto.
  - right; exists 400%Z, (JString (js "No id found")); auto.
  - right; exists 400%Z, (JString (message e)); auto.
Qed.

Lemma handler_is_one_res_call_or_an_early_throw_witness :
  In (fun P => Lesson5.handleRequest P) (all_handlers (list Call))
  /\ ((exists e,
         Lesson5.handleRequest JSON.parse (mkRequest body_null) resSpy []
           = ([], Throw e))
      \/ (exists status message,
            (status = 200%Z \/ status = 400%Z)
            /\ Lesson5.handleRequest JSON.parse (mkRequest body_null)
                 resSpy []
                 = once resSpy status message [])).
Proof.
  assert (Hin : In (fun P => Lesson5.handleRequest P)
                  (all_handlers (list Call))) by (simpl; auto 10).
  split; [exact Hin |].
  exact (@handler_is_one_res_call_or_an_early_throw JSON.parse (list Call)
           (fun P => Lesson5.handleRequest P) (mkRequest body_null)
           resSpy [] Hin).
Defined.

(** X8. Validation changes the answer only for a falsy [id].  If the
    request's payload, whenever it has a readable [id], has a truthy one,
    the lesson-5 handler runs exactly as the lesson-4 handler, for every
    [res]; and when the two record the same calls on a spy, the payload
    has no readable falsy [id]. *)
Theorem validation_changes_only_falsy_ids
    (JSON_parse : HostParse) (req : Request) :
  (forall (W : Type) (res : Res W) (w : W),
      (forall data id,
          jsonParse JSON_parse (body req) = Normal (Ok data) ->
          get_id data = Normal id -> ToBoolean id = true) ->
      Lesson5.handleRequest JSON_parse req res w
        = Lesson4.handleRequest JSON_parse req res w)
  /\ (Lesson5.handleRequest JSON_parse req resSpy []
        = Lesson4.handleRequest JSON_parse req resSpy [] ->
      forall data id,
        jsonParse JSON_parse (body req) = Normal (Ok data) ->
        get_id data = Normal id -> ToBoolean id = true).
Proof.
  assert (H5 : forall W, In (fun P => Lesson5.handleRequest P)
                           (validating_handlers W)) by (simpl; auto).
  assert (H4 : forall W, In (fun P => Lesson4.handleRequest P)
                           (unvalidated_handlers W)) by (simpl; auto).
  assert (A5 : forall W, In (fun P => Lesson5.handleRequest P)
                           (all_handlers W)) by (simpl; auto 10).
  assert (A4 : forall W, In (fun P => Lesson4.handleRequest P)
                           (all_handlers W)) by (simpl; auto 10).
  split.
  - intros W res w Htruthy.
    destruct (jsonParse JSON_parse (body req)) as [[data | e] | e] eqn:Hj.
    + destruct (get_id data) as [id | e] eqn:Hid.
      * rewrite (validating_parse_ok JSON_parse res req w (H5 W) Hj Hid
                   (Htruthy data id eq_refl Hid)).
        rewrite (unvalidated_parse_ok JSON_parse res req w (H4 W) Hj Hid).
        reflexivity.
      * rewrite (handler_id_fatal JSON_parse res req w (A5 W) Hj Hid).
        rewrite (handler_id_fatal JSON_parse res req w (A4 W) Hj Hid).
        reflexivity.
    + rewrite (handler_parse_err JSON_parse res req w (A5 W) Hj).
      rewrite (handler_parse_err JSON_parse res req w (A4 W) Hj).
      reflexivity.
    + rewrite (handler_parse_fatal JSON_parse res req w (A5 W) Hj).
      rewrite (handler_parse_fatal JSON_parse res req w (A4 W) Hj).
      reflexivity.
  - intros Hsame data id Hj Hid.
    destruct (ToBoolean id) eqn:Ht; [reflexivity |].
    rewrite (validating_parse_falsy JSON_parse resSpy req []
               (H5 _) Hj Hid Ht) in Hsame.
    rewrite (unvalidated_parse_ok JSON_parse resSpy req []
               (H4 _) Hj Hid) in Hsame.
    discriminate Hsame.
Qed.

Lemma validation_changes_only_falsy_ids_witness :
  Lesson5.handleRequest JSON.parse (mkRequest body_with_id) resSpy []
    = Lesson4.handleRequest JSON.parse (mkRequest body_with_id) resSpy [].
Proof.
  apply (proj1 (validation_changes_only_falsy_ids JSON.parse
                  (mkRequest body_with_id))).
  intros data id Hj Hid.
  assert (Hd : jsonParse JSON.parse (body (mkRequest body_with_id))
               = Normal (Ok (JObject [(js "id", JString (js "123"))])))
    by (vm_compute; reflexivity).
  rewrite Hd in Hj; inversion Hj; subst data.
  inversion Hid; reflexivity.
Defined.

(** X9. When a handler lets an error escape.  With a [res] that does not
    throw (the tests' spy), a handler of any lesson throws exactly when
    the host parser threw something that is no SyntaxError, or returned
    [null] or [undefined]; in every other case it returns. *)
Theorem handler_throws_exactly_when
    (JSON_parse : HostParse) (h : Handler (list Call)) (req : Request) :
  In h (all_handlers (list Call)) ->
  (exists calls e, h JSON_parse req resSpy [] = (calls, Throw e))
  <-> (JSON_parse (body req) = Normal JNull
       \/ JSON_parse (body req) = Normal JUndefined
       \/ exists e,
            JSON_parse (body req) = Throw e
            /\ instanceof e SyntaxError = false).
Proof.
  intros Hin; split.
  - intros (calls & e & Hrun).
    destruct (handler_outcome JSON_parse req resSpy [] Hin)
      as [(e' & _ & [Hj | (data & Hj & Hid)])
         | [(data & id & _ & _ & _ & He)
           | [(data & id & _ & _ & _ & _ & He) | (e' & _ & He)]]].
    + right; right; exists e'.
      exact (jsonParse_inv JSON_parse (body req) Hj).
    + assert (Hp := jsonParse_inv JSON_parse (body req) Hj); cbn in Hp.
      destruct (get_id_throw_inv data Hid) as [-> | ->]; auto.
    + rewrite He, once_resSpy in Hrun; discriminate Hrun.
    + rewrite He, once_resSpy in Hrun; discriminate Hrun.
    + rewrite He, once_resSpy in Hrun; discriminate Hrun.
  - intros [Hn | [Hu | (e & He & Hs)]].
    + exists [], (cannot_read "null" "id").
      apply handler_id_fatal with (data := JNull); auto.
      now apply jsonParse_parsed.
    + exists [], (cannot_read "undefined" "id").
      apply handler_id_fatal with (data := JUndefined); auto.
      now apply jsonParse_parsed.
    + exists [], e.
      apply handler_parse_fatal; auto.
      now apply jsonParse_fatal.
Qed.

Lemma handler_throws_exactly_when_witness :
  In (fun P => Lesson4.handleRequest P) (all_handlers (list Call))
  /\ (exists e,
        overflowing_host (body (mkRequest body_with_id)) = Throw e
        /\ instanceof e SyntaxError = false)
  /\ exists calls e,
       Lesson4.handleRequest overflowing_host (mkRequest body_with_id)
         resSpy [] = (calls, Throw e).
Proof.
  assert (Hin : In (fun P => Lesson4.handleRequest P)
                  (all_handlers (list Call))) by (simpl; auto 10).
  assert (Hthrow : exists e,
             overflowing_host (body (mkRequest body_with_id)) = Throw e
             /\ instanceof e SyntaxError = false)
    by (eexists; split; reflexivity).
  split; [exact Hin | split; [exact Hthrow |]].
  exact (proj2 (@handler_throws_exactly_when overflowing_host
                  (fun P => Lesson4.handleRequest P)
                  (mkRequest body_with_id) Hin)
           (or_intror (or_intror Hthrow))).
Defined.

(** X10. The answer depends on the parsed body only through its [id]:
    two requests whose payloads read the same [data.id] (the same value,
    or the same TypeError) get the same run from a handler of any lesson,
    whatever else the payloads hold. *)
Theorem answer_depends_only_on_id
    (P1 P2 : HostParse) (W : Type) (h : Handler W)
    (req1 req2 : Request) (data1 data2 : JsValue) (res : Res W) (w : W) :
  In h (all_handlers W) ->
  jsonParse P1 (body req1) = Normal (Ok data1) ->
  jsonParse P2 (body req2) = Normal (Ok data2) ->
  get_id data1 = get_id data2 ->
  h P1 req1 res w = h P2 req2 res w.
Proof.
  intros Hin H1 H2 Hsame.
  destruct (get_id data1) as [id | e] eqn:Hid1; symmetry in Hsame.
  - pose proof Hin as Hin'.
    unfold all_handlers in Hin'; apply in_app_or in Hin' as [Hu | Hv].
    + rewrite (unvalidated_parse_ok P1 res req1 w Hu H1 Hid1).
      rewrite (unvalidated_parse_ok P2 res req2 w Hu H2 Hsame).
      reflexivity.
    + destruct (ToBoolean id) eqn:Ht.
      * rewrite (validating_parse_ok P1 res req1 w Hv H1 Hid1 Ht).
        rewrite (validating_parse_ok P2 res req2 w Hv H2 Hsame Ht).
        reflexivity.
      * rewrite (validating_parse_falsy P1 res req1 w Hv H1 Hid1 Ht).
        rewrite (validating_parse_falsy P2 res req2 w Hv H2 Hsame Ht).
        reflexivity.
  - rewrite (handler_id_fatal P1 res req1 w Hin H1 Hid1).
    rewrite (handler_id_fatal P2 res req2 w Hin H2 Hsame).
    reflexivity.
Qed.

Lemma answer_depends_only_on_id_witness :
  let longer :=
    js "{" ++ quoted "name" ++ js ": [1, 2], " ++ quoted "id" ++ js ": "
      ++ quoted "123" ++ js "}" in
  JSON.parse longer
    = Normal
        (JObject
           [(js "name",
             JArray [JNumber (mkNumber false 1 0);
                     JNumber (mkNumber false 2 0)]);
            (js "id", JString (js "123"))])
  /\ Lesson5.handleRequest JSON.parse (mkRequest body_with_id) resSpy []
       = Lesson5.handleRequest JSON.parse (mkRequest longer) resSpy [].
Proof.
  intros longer.
  assert (Hp : JSON.parse longer
               = Normal
                   (JObject
                      [(js "name",
                        JArray [JNumber (mkNumber false 1 0);
                                JNumber (mkNumber false 2 0)]);
                       (js "id", JString (js "123"))]))
    by (vm_compute; reflexivity).
  split; [exact Hp |].
  apply (@answer_depends_only_on_id JSON.parse JSON.parse (list Call)
           (fun P => Lesson5.handleRequest P)
           (mkRequest body_with_id) (mkRequest longer)
           (JObject [(js "id", JString (js "123"))])
           (JObject
              [(js "name",
                JArray [JNumber (mkNumber false 1 0);
                        JNumber (mkNumber false 2 0)]);
               (js "id", JString (js "123"))])
           resSpy []).
  - simpl; auto 10.
  - apply jsonParse_parsed; vm_compute; reflexivity.
  - apply jsonParse_parsed; exact Hp.
  - reflexivity.
Defined.

(** X11. [jsonParse] throws no error of its own: what it throws is what
    the host parser threw, and is no SyntaxError.  So over a parser that
    throws nothing but SyntaxErrors, [jsonParse] returns a Result for
    every input. *)
Theorem jsonParse_throws_only_what_the_parser_threw
    (JSON_parse : HostParse) (input : js_string) :
  (forall e,
      jsonParse JSON_parse input = Throw e ->
      JSON_parse input = Throw e /\ instanceof e SyntaxError = false)
  /\ ((forall e, JSON_parse input = Throw e ->
                 instanceof e SyntaxError = true) ->
      exists r, jsonParse JSON_parse input = Normal r).
Proof.
  split.
  - intros e H; exact (jsonParse_inv JSON_parse input H).
  - intros Honly.
    destruct (jsonParse JSON_parse input) as [r | e] eqn:Hj; [eauto |].
    destruct (jsonParse_inv JSON_parse input Hj) as [Ht Hs].
    rewrite (Honly e Ht) in Hs; discriminate Hs.
Qed.

Lemma jsonParse_throws_only_what_the_parser_threw_witness :
  let e := new RangeError (js "Maximum call stack size exceeded") in
  jsonParse overflowing_host body_with_id = Throw e
  /\ overflowing_host body_with_id = Throw e
  /\ instanceof e SyntaxError = false.
Proof.
  intros e.
  assert (H : jsonParse overflowing_host body_with_id = Throw e)
    by reflexivity.
  split; [exact H |].
  exact (proj1 (jsonParse_throws_only_what_the_parser_threw
                  overflowing_host body_with_id) e H).
Defined.
